(** * The PDF ingestion pipeline: handlers and batch scripts

    A shallow embedding of the four Python files of the repository

    - [packages/pdf-ingestion-service/main.py]      ([Service])
    - [packages/pdf-ingestion/main.py]              ([Chunks])
    - [packages/pdf-ingestion-service/ingestion.py] ([MarkdownScript])
    - [packages/pdf-ingestion/ingestion.py]         ([ChunkScript])

    The document converter, the chunker and the embeddings client are
    third-party objects; they appear as the fields of an environment
    record.  Python exceptions are values of [Exc]; the temporary files
    and the order of the external calls are an explicit state. *)

From Stdlib Require Import Ascii.
From stdpp Require Import gmap strings list fin_maps.

(** ** Exceptions *)

(** The outcome of a Python expression that may raise: either the
    exception, kept as its message [str(e)], or the value.  Only
    instances of [Exception] are modelled: both handlers and both
    scripts catch with [except Exception]. *)
Inductive Exc (A : Type) : Type :=
| Raise (msg : string)
| Return (a : A).
Arguments Raise {A} msg.
Arguments Return {A} a.

#[global] Instance Exc_ret : MRet Exc := λ A a, Return a.
#[global] Instance Exc_bind : MBind Exc := λ A B k m,
  match m with
  | Raise e => Raise e
  | Return a => k a
  end.

(** A statement that runs in a state of type [S]: it changes the state
    and either completes with a value or raises.  The state an
    exception leaves behind is kept: an [except] clause runs in it. *)
Definition StateExc (S A : Type) : Type := S → Exc A * S.

#[global] Instance StateExc_ret {S} : MRet (StateExc S) := λ A a σ, (Return a, σ).
#[global] Instance StateExc_bind {S} : MBind (StateExc S) := λ A B k m σ,
  match m σ with
  | (Raise e, σ') => (Raise e, σ')
  | (Return a, σ') => k a σ'
  end.

(** An expression that touches no state. *)
Definition lift {S A} (m : Exc A) : StateExc S A := λ σ, (m, σ).

(** ** Strings as Python sees them *)

(** The line feed of the f-strings and of the heading separator. *)
Definition LF : string := String "010"%char "".

(** [s.endswith(suffix)]. *)
Definition endswith (s suffix : string) : bool :=
  let n := String.length s in
  let m := String.length suffix in
  if decide (m ≤ n)
  then bool_decide (String.substring (n - m) m s = suffix)
  else false.

(** [delim.join(items)]. *)
Fixpoint join (delim : string) (items : list string) : string :=
  match items with
  | [] => ""
  | [x] => x
  | x :: rest => x +:+ delim +:+ join delim rest
  end.

(** [t in s]: [t] occurs in [s] as a contiguous run of characters. *)
Definition Substring (t s : string) : Prop :=
  ∃ before after, s = before +:+ t +:+ after.

(** Truthiness of a [str | None]: [None] and the empty string are
    falsy. *)
Definition truthy (o : option string) : bool :=
  match o with
  | Some s => negb (String.eqb s "")
  | None => false
  end.

(** ** The objects of docling and of the embeddings client *)

Section Objects.
Context {Json Float : Type}.

(** A JSON object as [export_json_dict] returns it. *)
Definition dict : Type := gmap string Json.

(** [chunk.meta]: the handlers ask [hasattr(meta, 'export_json_dict')]
    and call the method when it is there; the call returns a
    dictionary or raises. *)
Inductive Meta : Type :=
| MetaExport (export_json_dict : Exc dict)
| MetaPlain.

Definition has_export_json_dict (m : Meta) : bool :=
  match m with MetaExport _ => true | MetaPlain => false end.

(** A heading of the trail above a chunk. *)
Record Heading : Type := { heading_text : string; level : nat }.

(** A chunk object.  The handlers read [chunk.text] and [chunk.meta];
    the heading trail is what the contextualizer reads. *)
Record Chunk : Type := {
  chunk_text : string;
  chunk_headings : list Heading;
  chunk_meta : Meta
}.

(** [chunker.chunk(dl_doc=doc)] is a generator: it yields chunks one
    at a time and may raise while it is consumed. *)
Inductive ChunkIter : Type :=
| IterDone
| IterYield (chunk : Chunk) (rest : ChunkIter)
| IterRaise (msg : string).

(** The chunks a generator yields before it stops or raises. *)
Fixpoint yielded (it : ChunkIter) : list Chunk :=
  match it with
  | IterYield c rest => c :: yielded rest
  | IterDone | IterRaise _ => []
  end.

(** One element of [embeddings_response.data]. *)
Record Embedding : Type := { data_embedding : list Float }.

(** The uploaded file: [file.filename] and the outcome of
    [await file.read()]. *)
Record UploadFile : Type := {
  filename : option string;
  read : Exc (list Byte.byte)
}.

(** [HTTPException(status_code=..., detail=...)]; FastAPI renders it
    as a response with that status and the body [{"detail": detail}]. *)
Record HTTPException : Type := { status_code : nat; detail : string }.
End Objects.

Arguments Meta : clear implicits.
Arguments Chunk : clear implicits.
Arguments ChunkIter : clear implicits.
Arguments Embedding : clear implicits.

(** ** The world of a request *)

(** What a call leaves behind that the next one can see. *)
Inductive Event : Type :=
| EvNamedTemporaryFile (path : string)
| EvConvert (path : string)
| EvChunk
| EvEmbeddingsCreate (model : string) (input : list string)
| EvUnlink (path : string).

(** The files on disk and the external calls made so far, oldest
    first. *)
Record World : Type := {
  fs : gmap string (list Byte.byte);
  trace : list Event
}.

(** The state a handler runs in: the world and the handler's local
    variable [tmp_file_path], which the [except] clause reads after
    the [try] body was left by an exception. *)
Record Frame : Type := {
  world : World;
  tmp_file_path : option string
}.

(** A statement of a handler. *)
Abbreviation Handler := (StateExc Frame).

Definition log (ev : Event) : Handler unit := λ σ,
  (Return (),
   {| world := {| fs := fs (world σ); trace := trace (world σ) ++ [ev] |};
      tmp_file_path := tmp_file_path σ |}).

Definition set_fs (f : gmap string (list Byte.byte)) : Handler unit := λ σ,
  (Return (),
   {| world := {| fs := f; trace := trace (world σ) |};
      tmp_file_path := tmp_file_path σ |}).

Definition get_fs : Handler (gmap string (list Byte.byte)) := λ σ,
  (Return (fs (world σ)), σ).

Definition set_tmp_file_path (p : option string) : Handler unit := λ σ,
  (Return (), {| world := world σ; tmp_file_path := p |}).

Definition get_tmp_file_path : Handler (option string) := λ σ,
  (Return (tmp_file_path σ), σ).

(** ** The environment of the handlers *)

Section Environment.
Context {Document Json Float : Type}.

(** The collaborators of a handler.
    - [mkstemp]: the path, less its suffix, that
      [tempfile.NamedTemporaryFile] picks given the files on disk, or
      the [OSError] it raises;
    - [tmp_write]: the outcome of [tmp_file.write(content)];
    - [converter_convert]: [converter.convert(path).document], from
      the path and the bytes found there;
    - [export_to_text]: [doc.export_to_text()];
    - [chunker_chunk], [chunker_contextualize]: the two methods of the
      chunker; the second returns its string together with the chunk
      object as the call leaves it;
    - [embeddings_create]: [openai_client.embeddings.create(model=...,
      input=...).data]. *)
Record Env : Type := {
  mkstemp : gmap string (list Byte.byte) → Exc string;
  tmp_write : string → list Byte.byte → Exc unit;
  converter_convert : string → list Byte.byte → Exc Document;
  export_to_text : Document → Exc string;
  chunker_chunk : Document → ChunkIter Json;
  chunker_contextualize : Chunk Json → Exc (string * Chunk Json);
  embeddings_create : string → list string → Exc (list (Embedding Float))
}.

Variable env : Env.

(** [tempfile.NamedTemporaryFile(delete=False, suffix=...)]: an empty
    file is created under a new name ending with the suffix.  Leaving
    the [with] block closes it and, with [delete=False], keeps it. *)
Definition NamedTemporaryFile (suffix : string) : Handler string :=
  files ← get_fs;
  stem ← lift (mkstemp env files);
  let name := stem +:+ suffix in
  _ ← set_fs (<[name := []]> files);
  _ ← log (EvNamedTemporaryFile name);
  mret name.

(** [tmp_file.write(content)], when the write itself raises or
    returns.  The flush of a buffered write when the [with] block
    closes the file is not a step of its own here: an error of it
    would be raised with [tmp_file_path] assigned, like an error of
    the steps that follow. *)
Definition write (name : string) (content : list Byte.byte) : Handler unit :=
  _ ← lift (tmp_write env name content);
  files ← get_fs;
  set_fs (<[name := content]> files).

(** [converter.convert(tmp_file_path).document]. *)
Definition convert (path : string) : Handler Document :=
  _ ← log (EvConvert path);
  files ← get_fs;
  match files !! path with
  | Some content => lift (converter_convert env path content)
  | None => lift (Raise ("File not found: " +:+ path))
  end.

(** [chunker.chunk(dl_doc=doc)]. *)
Definition chunk (doc : Document) : Handler (ChunkIter Json) :=
  _ ← log EvChunk;
  mret (chunker_chunk env doc).

(** [openai_client.embeddings.create(model=model, input=input)]. *)
Definition create (model : string) (input : list string)
  : Handler (list (Embedding Float)) :=
  _ ← log (EvEmbeddingsCreate model input);
  lift (embeddings_create env model input).

(** [Path(path).unlink(missing_ok=True)]. *)
Definition unlink (path : string) : Handler unit :=
  files ← get_fs;
  _ ← set_fs (delete path files);
  log (EvUnlink path).

(** [if tmp_file_path: Path(tmp_file_path).unlink(missing_ok=True)]. *)
Definition cleanup : Handler unit :=
  p ← get_tmp_file_path;
  if truthy p then
    match p with Some path => unlink path | None => mret () end
  else mret ().

(** [chunk.meta.export_json_dict() if hasattr(chunk.meta,
    'export_json_dict') else {}]. *)
Definition export_meta (m : Meta Json) : Exc (@dict Json) :=
  match m with
  | MetaExport d => d
  | MetaPlain => Return ∅
  end.

(** [not file.filename or not file.filename.endswith('.pdf')]. *)
Definition unsupported (file : UploadFile) : bool :=
  negb (truthy (filename file))
  || negb (match filename file with
           | Some f => endswith f ".pdf"
           | None => false
           end).
End Environment.

Arguments Env : clear implicits.


(** ** [pdf-ingestion-service/main.py] *)

Module Service.
Section Handler.
Context {Document Json Float : Type}.

(** [MODEL]: the [model] argument of the embeddings call. *)
Definition MODEL : string := "text-embedding-3-small".

(** The dictionary appended to [chunk_data] for one chunk. *)
Record ChunkInfo : Type := {
  info_text : string;
  info_contextualized_text : string;
  info_meta : @dict Json;
  info_index : nat
}.

Record ChunkResponse : Type := {
  text : string;
  contextualized_text : string;
  embedding : list Float;
  index : nat;
  meta : @dict Json
}.

Record ProcessedDocumentResponse : Type := {
  chunks : list ChunkResponse;
  total_chunks : nat;
  full_text : string
}.

Variable env : Env Document Json Float.

(** The body of [for idx, chunk in enumerate(chunk_iter)] for one
    chunk: the chunk is contextualized first, then its text and its
    metadata are read. *)
Definition chunk_info (idx : nat) (c : Chunk Json) : Exc (ChunkInfo * string) :=
  '(contextualized_text, c) ← chunker_contextualize env c;
  m ← export_meta (chunk_meta c);
  mret ({| info_text := chunk_text c;
           info_contextualized_text := contextualized_text;
           info_meta := m;
           info_index := idx |}, contextualized_text).

(** The first loop, from the chunk the generator is about to yield, the
    value [enumerate] is about to give and the two lists built so
    far. *)
Fixpoint chunk_data_loop (chunk_iter : ChunkIter Json) (idx : nat)
    (chunk_data : list ChunkInfo) (contextualized_texts : list string)
  : Exc (list ChunkInfo * list string) :=
  match chunk_iter with
  | IterDone => Return (chunk_data, contextualized_texts)
  | IterRaise e => Raise e
  | IterYield c rest =>
      '(info, contextualized_text) ← chunk_info idx c;
      chunk_data_loop rest (S idx) (chunk_data ++ [info])
        (contextualized_texts ++ [contextualized_text])
  end.

(** [embeddings_response.data[i]]: an index past the end raises
    [IndexError]. *)
Definition getitem (data : list (Embedding Float)) (i : nat)
  : Exc (Embedding Float) :=
  match data !! i with
  | Some d => Return d
  | None => Raise "list index out of range"
  end.

(** [ChunkResponse(text=chunk_info["text"], ..., embedding=...,
    index=chunk_info["index"], meta=chunk_info["meta"])]. *)
Definition response (info : ChunkInfo) (d : Embedding Float) : ChunkResponse :=
  {| text := info_text info;
     contextualized_text := info_contextualized_text info;
     embedding := data_embedding d;
     index := info_index info;
     meta := info_meta info |}.

(** The second loop, [for i, chunk_info in enumerate(chunk_data)], from
    the part of [chunk_data] still to visit, the value [enumerate] is
    about to give and the responses built so far. *)
Fixpoint chunks_loop (data : list (Embedding Float))
    (chunk_data : list ChunkInfo) (i : nat) (chunks : list ChunkResponse)
  : Exc (list ChunkResponse) :=
  match chunk_data with
  | [] => Return chunks
  | info :: rest =>
      d ← getitem data i;
      chunks_loop data rest (S i) (chunks ++ [response info d])
  end.

(** The [try] block. *)
Definition try_body (file : UploadFile) : Handler ProcessedDocumentResponse :=
  tmp_file ← NamedTemporaryFile env ".pdf";
  content ← lift (read file);
  _ ← write env tmp_file content;
  _ ← set_tmp_file_path (Some tmp_file);
  doc ← convert env tmp_file;
  full_text ← lift (export_to_text env doc);
  chunk_iter ← chunk env doc;
  '(chunk_data, contextualized_texts) ← lift (chunk_data_loop chunk_iter 0 [] []);
  embeddings_response ← create env MODEL contextualized_texts;
  chunks ← lift (chunks_loop embeddings_response chunk_data 0 []);
  _ ← cleanup;
  mret {| chunks := chunks;
          total_chunks := length chunks;
          full_text := full_text |}.

(** The handler of [POST /pdf/process], given the converter, the
    chunker and the client its three cached getters return.  The result
    is the exception FastAPI turns into an error response, or the
    response model. *)
Definition process_pdf_document (file : UploadFile) (w : World)
  : (HTTPException + ProcessedDocumentResponse) * World :=
  if unsupported file then
    (inl {| status_code := 400; detail := "Only PDF files are supported" |}, w)
  else
    match try_body file {| world := w; tmp_file_path := None |} with
    | (Return response, σ) => (inr response, world σ)
    | (Raise e, σ) =>
        (inl {| status_code := 500;
                detail := "Error processing PDF: " +:+ e |},
         world (cleanup σ).2)
    end.
End Handler.
Arguments ChunkInfo : clear implicits.
Arguments ChunkResponse : clear implicits.
Arguments ProcessedDocumentResponse : clear implicits.
End Service.

(** ** [pdf-ingestion/main.py] *)

Module Chunks.
Section Handler.
Context {Document Json Float : Type}.

Record ChunkResponse : Type := {
  text : string;
  contextualized_text : string;
  meta : @dict Json
}.

Record ChunksResponse : Type := {
  chunks : list ChunkResponse;
  total_chunks : nat
}.

Variable env : Env Document Json Float.

(** The body of [for chunk in chunk_iter] for one chunk. *)
Definition chunk_response (c : Chunk Json) : Exc ChunkResponse :=
  '(contextualized_text, c) ← chunker_contextualize env c;
  m ← export_meta (chunk_meta c);
  mret {| text := chunk_text c;
          contextualized_text := contextualized_text;
          meta := m |}.

(** The loop, from the chunk the generator is about to yield and the
    responses built so far. *)
Fixpoint chunks_loop (chunk_iter : ChunkIter Json) (chunks : list ChunkResponse)
  : Exc (list ChunkResponse) :=
  match chunk_iter with
  | IterDone => Return chunks
  | IterRaise e => Raise e
  | IterYield c rest =>
      r ← chunk_response c;
      chunks_loop rest (chunks ++ [r])
  end.

(** The [try] block. *)
Definition try_body (file : UploadFile) : Handler ChunksResponse :=
  tmp_file ← NamedTemporaryFile env ".pdf";
  content ← lift (read file);
  _ ← write env tmp_file content;
  _ ← set_tmp_file_path (Some tmp_file);
  doc ← convert env tmp_file;
  chunk_iter ← chunk env doc;
  chunks ← lift (chunks_loop chunk_iter []);
  _ ← cleanup;
  mret {| chunks := chunks; total_chunks := length chunks |}.

(** The handler of [POST /pdf/chunks]. *)
Definition extract_pdf_chunks (file : UploadFile) (w : World)
  : (HTTPException + ChunksResponse) * World :=
  if unsupported file then
    (inl {| status_code := 400; detail := "Only PDF files are supported" |}, w)
  else
    match try_body file {| world := w; tmp_file_path := None |} with
    | (Return response, σ) => (inr response, world σ)
    | (Raise e, σ) =>
        (inl {| status_code := 500;
                detail := "Error processing PDF: " +:+ e |},
         world (cleanup σ).2)
    end.
End Handler.
Arguments ChunkResponse : clear implicits.
Arguments ChunksResponse : clear implicits.
End Chunks.

(** ** The two batch scripts *)

(** A line a script prints.
    - [NoFiles]: ["No PDF files found in ./pdf folder"];
    - [Found n]: ["Found {n} PDF file(s) to convert"];
    - [Converting name]: ["\nConverting: {name}"];
    - [Saved path]: ["  ✓ Saved markdown to {path}"];
    - [ErrorConverting name msg]: ["  ✗ Error converting {name}: {msg}"];
    - [Complete folder]:
      ["\nConversion complete! Output files saved in {folder}"];
    - [ChunkHeader i]: ["=== {i} ==="];
    - [ChunkText t], [ChunkContext t]: the two lines that show a chunk's
      text and its contextualized text;
    - [Blank]: the empty [print()]. *)
Inductive Line : Type :=
| NoFiles
| Found (n : nat)
| Converting (name : string)
| Saved (path : string)
| ErrorConverting (name msg : string)
| Complete (folder : string)
| ChunkHeader (i : nat)
| ChunkText (t : string)
| ChunkContext (t : string)
| Blank.

(** What a script has done so far: the lines printed and the contents
    files were given (path and content), both oldest first. *)
Record Script : Type := {
  stdout : list Line;
  written : list (string * string)
}.

(** [print(...)]: the stream takes the line, or it refuses it and
    [print] raises, as [UnicodeEncodeError] does on a stream that
    cannot encode a character of the line; [refuses] gives the message
    of the exception then. *)
Definition print (refuses : Line → option string) (l : Line)
  : StateExc Script unit := λ σ,
  match refuses l with
  | Some e => (Raise e, σ)
  | None => (Return (), {| stdout := stdout σ ++ [l]; written := written σ |})
  end.

(** [name.rfind('.')], scanning from position [i] with the last hit so
    far. *)
Fixpoint rfind_dot (name : string) (i : nat) (last : option nat) : option nat :=
  match name with
  | "" => last
  | String c rest =>
      rfind_dot rest (S i) (if Ascii.eqb c "."%char then Some i else last)
  end.

(** [PurePath.stem]: the final component without its suffix. *)
Definition stem (name : string) : string :=
  match rfind_dot name 0 None with
  | Some i =>
      if (0 <? i) && (i <? String.length name - 1)
      then String.substring 0 i name
      else name
  | None => name
  end.

(** [try: body] followed by [except Exception as e: print(...)] of both
    scripts: the error line for the file when the body raised.  An
    exception of that [print] leaves the statement. *)
Definition except_print (refuses : Line → option string) (name : string)
    (body : StateExc Script unit) : StateExc Script unit := λ σ,
  match body σ with
  | (Return _, σ') => (Return (), σ')
  | (Raise e, σ') => print refuses (ErrorConverting name e) σ'
  end.

(** [for pdf_file in pdf_files: body]; an exception that leaves the
    body ends the loop. *)
Fixpoint for_each (body : string → StateExc Script unit) (pdf_files : list string)
  : StateExc Script unit :=
  match pdf_files with
  | [] => mret ()
  | name :: rest => _ ← body name; for_each body rest
  end.

(** What [Path.write_text] does with a path and a text: it opens the
    file, which creates or empties it, writes the text and closes the
    file.
    - [Written]: all of it succeeds;
    - [OpenFailed e]: opening raises, and the disk is as before;
    - [WriteFailed e kept]: writing or closing raises after the file
      was opened, and the file holds [kept], nothing or a part of the
      text. *)
Inductive WriteOutcome : Type :=
| Written
| OpenFailed (e : string)
| WriteFailed (e kept : string).

(** *** [pdf-ingestion-service/ingestion.py] *)

Module MarkdownScript.

(** - [convert_markdown name]:
      [converter.convert(pdf_file).document.export_to_markdown()] for
      the file of that name in [./pdf];
    - [write_text_outcome path md]: what [write_text] does for that
      path and text;
    - [stdout_refuses]: the lines the standard output refuses. *)
Record Env : Type := {
  convert_markdown : string → Exc string;
  write_text_outcome : string → string → WriteOutcome;
  stdout_refuses : Line → option string
}.

Section Script.
Variable env : Env.

(** [md_folder / f"{pdf_file.stem}.md"]. *)
Definition md_file_path (name : string) : string :=
  "md/" +:+ stem name +:+ ".md".

(** [md_file_path.write_text(md, encoding='utf-8')]. *)
Definition write_text (path md : string) : StateExc Script unit := λ σ,
  match write_text_outcome env path md with
  | Written =>
      (Return (), {| stdout := stdout σ; written := written σ ++ [(path, md)] |})
  | OpenFailed e => (Raise e, σ)
  | WriteFailed e kept =>
      (Raise e, {| stdout := stdout σ; written := written σ ++ [(path, kept)] |})
  end.

(** The [try] block for one file. *)
Definition try_body (name : string) : StateExc Script unit :=
  md ← lift (convert_markdown env name);
  _ ← write_text (md_file_path name) md;
  print (stdout_refuses env) (Saved (md_file_path name)).

(** The body of [for pdf_file in pdf_files]. *)
Definition convert_file (name : string) : StateExc Script unit :=
  _ ← print (stdout_refuses env) (Converting name);
  except_print (stdout_refuses env) name (try_body name).

(** The script from [pdf_files = list(pdf_folder.glob("*.pdf"))] on,
    given the names the glob found.  It ends normally or by the
    exception that left it. *)
Definition main (pdf_files : list string) : StateExc Script unit :=
  match pdf_files with
  | [] => print (stdout_refuses env) NoFiles
  | _ =>
      _ ← print (stdout_refuses env) (Found (length pdf_files));
      _ ← for_each convert_file pdf_files;
      print (stdout_refuses env) (Complete "md")
  end.
End Script.
End MarkdownScript.

(** *** [pdf-ingestion/ingestion.py] *)

Module ChunkScript.
Section Script.
Context {Document Json : Type}.

(** The chunker [HybridChunker()] builds, by its two methods. *)
Record HybridChunker : Type := {
  hybrid_chunk : Document → ChunkIter Json;
  hybrid_contextualize : Chunk Json → Exc (string * Chunk Json)
}.

(** - [convert_document name]: [converter.convert(pdf_file).document];
    - [new_HybridChunker]: what [HybridChunker()] does when the script
      calls it, after the [Found] line;
    - [stdout_refuses]: the lines the standard output refuses. *)
Record Env : Type := {
  convert_document : string → Exc Document;
  new_HybridChunker : Exc HybridChunker;
  stdout_refuses : Line → option string
}.

Variable env : Env.

(** [for i, chunk in enumerate(chunk_iter)], from the chunk the
    generator is about to yield and the value [enumerate] is about to
    give. *)
Fixpoint chunk_loop (chunker : HybridChunker) (chunk_iter : ChunkIter Json)
    (i : nat) : StateExc Script unit :=
  match chunk_iter with
  | IterDone => mret ()
  | IterRaise e => lift (Raise e)
  | IterYield c rest =>
      _ ← print (stdout_refuses env) (ChunkHeader i);
      _ ← print (stdout_refuses env) (ChunkText (chunk_text c));
      '(enriched_text, _) ← lift (hybrid_contextualize chunker c);
      _ ← print (stdout_refuses env) (ChunkContext enriched_text);
      _ ← print (stdout_refuses env) Blank;
      chunk_loop chunker rest (S i)
  end.

(** The [try] block for one file. *)
Definition try_body (chunker : HybridChunker) (name : string)
  : StateExc Script unit :=
  doc ← lift (convert_document env name);
  chunk_loop chunker (hybrid_chunk chunker doc) 0.

(** The body of [for pdf_file in pdf_files]. *)
Definition convert_file (chunker : HybridChunker) (name : string)
  : StateExc Script unit :=
  _ ← print (stdout_refuses env) (Converting name);
  except_print (stdout_refuses env) name (try_body chunker name).

(** The script from [pdf_files = list(pdf_folder.glob("*.pdf"))] on.
    It ends normally or by the exception that left it. *)
Definition main (pdf_files : list string) : StateExc Script unit :=
  match pdf_files with
  | [] => print (stdout_refuses env) NoFiles
  | _ =>
      _ ← print (stdout_refuses env) (Found (length pdf_files));
      chunker ← lift (new_HybridChunker env);
      _ ← for_each (convert_file chunker) pdf_files;
      print (stdout_refuses env) (Complete "docling")
  end.
End Script.
Arguments HybridChunker : clear implicits.
Arguments Env : clear implicits.
End ChunkScript.

(** ** The contextualizer *)

Module HierarchicalChunker.
(** Modelled from the spec: [chunker.contextualize] is a method of
    docling's [HierarchicalChunker]; the repository holds only its two
    callers.  The spec (4.3) gives its output as the chunk's heading
    trail, root first, one heading per line, skipped when empty,
    followed by the chunk's raw text; its example (8) fixes the
    separator as a line feed.  The call never raises and leaves the
    chunk as it found it. *)
Definition contextualize {Json} (c : Chunk Json) : Exc (string * Chunk Json) :=
  Return (join LF (map heading_text (chunk_headings c) ++ [chunk_text c]), c).
End HierarchicalChunker.

(** ** What the theorems speak of *)

Section Views.
Context {Document Json Float : Type}.
Variable env : Env Document Json Float.

(** The path [NamedTemporaryFile(suffix='.pdf')] gives the staged copy
    in a world, when it does not raise. *)
Definition staged_path (w : World) : Exc string :=
  stem ← mkstemp env (fs w);
  mret (stem +:+ ".pdf").

(** The document a handler chunks: what staging the upload and
    converting the staged copy give when none of them raises. *)
Definition converted (file : UploadFile) (w : World) : Exc Document :=
  path ← staged_path w;
  content ← read file;
  _ ← tmp_write env path content;
  converter_convert env path content.

(** Staging alone: creating the temporary file, reading the upload and
    writing it to the file. *)
Definition staging (file : UploadFile) (w : World) : Exc unit :=
  path ← staged_path w;
  content ← read file;
  tmp_write env path content.

(** The fields a loop body reads off a chunk: the contextualized text
    the chunker returns for it, then the text and the exported metadata
    of the chunk object as that call left it. *)
Definition describes (c : Chunk Json) (text contextualized_text : string)
    (meta : @dict Json) : Prop :=
  ∃ c', chunker_contextualize env c = Return (contextualized_text, c')
        ∧ text = chunk_text c'
        ∧ export_meta (chunk_meta c') = Return meta.

(** What [process_pdf_document] has in hand when it calls the
    embeddings client: the full text, the entries of [chunk_data] and
    the contextualized texts it is about to submit. *)
Definition collected (file : UploadFile) (w : World)
  : Exc (string * list (Service.ChunkInfo Json) * list string) :=
  doc ← converted file w;
  full_text ← export_to_text env doc;
  '(chunk_data, contextualized_texts) ←
    Service.chunk_data_loop env (chunker_chunk env doc) 0 [] [];
  mret (full_text, chunk_data, contextualized_texts).
End Views.

(** The names of the files a script announced with a [Converting]
    line. *)
Definition attempted (out : list Line) : list string :=
  omap (λ l, match l with Converting name => Some name | _ => None end) out.

Module MarkdownOutcome.
Section Outcome.
Variable env : MarkdownScript.Env.

(** What became of one file: the text written, or the message of the
    exception that conversion or writing raised. *)
Definition outcome (name : string) : Exc string :=
  md ← MarkdownScript.convert_markdown env name;
  match MarkdownScript.write_text_outcome env (MarkdownScript.md_file_path name) md with
  | Written => Return md
  | OpenFailed e => Raise e
  | WriteFailed e _ => Raise e
  end.

(** The file written for an input, when its conversion and the write
    succeeded. *)
Definition output (name : string) : option (string * string) :=
  match outcome name with
  | Return md => Some (MarkdownScript.md_file_path name, md)
  | Raise _ => None
  end.

(** What an input leaves on the disk: its output, or what a write that
    failed after opening the file left in it, or nothing. *)
Definition leaves (name : string) : option (string * string) :=
  match MarkdownScript.convert_markdown env name with
  | Raise _ => None
  | Return md =>
      match MarkdownScript.write_text_outcome env
              (MarkdownScript.md_file_path name) md with
      | Written => Some (MarkdownScript.md_file_path name, md)
      | OpenFailed _ => None
      | WriteFailed _ kept => Some (MarkdownScript.md_file_path name, kept)
      end
  end.

(** The two lines printed for an input. *)
Definition report (name : string) : list Line :=
  [Converting name;
   match outcome name with
   | Return _ => Saved (MarkdownScript.md_file_path name)
   | Raise e => ErrorConverting name e
   end].
End Outcome.
End MarkdownOutcome.

(** ** Sample runs *)

Module Demo.
Definition intro : list Heading := [{| heading_text := "Introduction"; level := 1 |}].

Definition P1 : Chunk string :=
  {| chunk_text := "Hello world.";
     chunk_headings := intro;
     chunk_meta := MetaExport (Return {["headings" := "Introduction"]}) |}.

Definition P2 : Chunk string :=
  {| chunk_text := "Second para.";
     chunk_headings := intro;
     chunk_meta := MetaPlain |}.

Definition two_paragraphs : ChunkIter string := IterYield P1 (IterYield P2 IterDone).

(** An environment in which staging and conversion succeed; the
    chunks the chunker yields, the outcome of writing the staged copy
    and the answer of the embeddings client are left open. *)
Definition env (it : ChunkIter string) (wr : Exc unit)
    (answer : list string → Exc (list (Embedding nat)))
  : Env unit string nat :=
  {| mkstemp := λ _, Return "/tmp/tmpk3v9";
     tmp_write := λ _ _, wr;
     converter_convert := λ _ _, Return ();
     export_to_text := λ _, Return "Introduction";
     chunker_chunk := λ _, it;
     chunker_contextualize := HierarchicalChunker.contextualize;
     embeddings_create := λ _, answer |}.

(** A client that answers with one vector per input. *)
Definition one_each (input : list string) : Exc (list (Embedding nat)) :=
  Return (imap (λ i _, {| data_embedding := [i; 7] |}) input).

(** A client that answers with one vector too many. *)
Definition one_more (input : list string) : Exc (list (Embedding nat)) :=
  Return ({| data_embedding := [0; 7] |}
          :: imap (λ i _, {| data_embedding := [S i; 7] |}) input).

(** A client that answers with a single vector. *)
Definition only_one (input : list string) : Exc (list (Embedding nat)) :=
  Return [{| data_embedding := [0; 7] |}].

(** A client that refuses an empty batch. *)
Definition refuse_empty (input : list string) : Exc (list (Embedding nat)) :=
  match input with
  | [] => Raise "Error code: 400 - '$.input' is invalid"
  | _ => one_each input
  end.

(** A disk with no room left for the staged copy. *)
Definition ENOSPC : Exc unit := Raise "[Errno 28] No space left on device".

Definition tmp : string := "/tmp/tmpk3v9.pdf".

Definition context1 : string := "Introduction" +:+ LF +:+ "Hello world.".
Definition context2 : string := "Introduction" +:+ LF +:+ "Second para.".

Definition infos : list (Service.ChunkInfo string) :=
  [{| Service.info_text := "Hello world.";
      Service.info_contextualized_text := context1;
      Service.info_meta := {["headings" := "Introduction"]};
      Service.info_index := 0 |};
   {| Service.info_text := "Second para.";
      Service.info_contextualized_text := context2;
      Service.info_meta := ∅;
      Service.info_index := 1 |}].

(** The answer of [process_pdf_document] for the two paragraphs when
    the first two vectors of the client are [[0; 7]] and [[1; 7]]. *)
Definition processed : Service.ProcessedDocumentResponse string nat :=
  {| Service.chunks :=
       [{| Service.text := "Hello world.";
           Service.contextualized_text := context1;
           Service.embedding := [0; 7];
           Service.index := 0;
           Service.meta := {["headings" := "Introduction"]} |};
        {| Service.text := "Second para.";
           Service.contextualized_text := context2;
           Service.embedding := [1; 7];
           Service.index := 1;
           Service.meta := ∅ |}];
     Service.total_chunks := 2;
     Service.full_text := "Introduction" |}.

(** The answer of [extract_pdf_chunks] for the two paragraphs. *)
Definition extracted : Chunks.ChunksResponse string :=
  {| Chunks.chunks :=
       [{| Chunks.text := "Hello world.";
           Chunks.contextualized_text := context1;
           Chunks.meta := {["headings" := "Introduction"]} |};
        {| Chunks.text := "Second para.";
           Chunks.contextualized_text := context2;
           Chunks.meta := ∅ |}];
     Chunks.total_chunks := 2 |}.

Definition pdf : UploadFile :=
  {| filename := Some "rules.pdf";
     read := Return [Byte.x25; Byte.x50; Byte.x44; Byte.x46] |}.

Definition txt : UploadFile :=
  {| filename := Some "rules.txt";
     read := Return [Byte.x25; Byte.x50; Byte.x44; Byte.x46] |}.

Definition w0 : World := {| fs := ∅; trace := [] |}.

Definition s0 : Script := {| stdout := []; written := [] |}.

(** The two paragraphs, a disk with room and a client that answers
    with one vector per text. *)
Definition healthy : Env unit string nat :=
  env two_paragraphs (Return ()) one_each.

(** The world a successful run of [process_pdf_document] leaves behind
    when it starts in [w0] with the two paragraphs. *)
Definition w1 : World :=
  {| fs := ∅;
     trace := [EvNamedTemporaryFile tmp; EvConvert tmp; EvChunk;
               EvEmbeddingsCreate Service.MODEL [context1; context2];
               EvUnlink tmp] |}.

(** A standard output that takes every line. *)
Definition utf8 (l : Line) : option string := None.

(** A standard output that cannot encode the marks of the saved and the
    error lines nor the ellipsis of the chunk lines. *)
Definition ascii_only (l : Line) : option string :=
  match l with
  | Saved _ | ErrorConverting _ _ | ChunkText _ | ChunkContext _ =>
      Some "'ascii' codec can't encode character"
  | _ => None
  end.

(** A directory of three files of which the second does not convert. *)
Definition markdown_env : MarkdownScript.Env :=
  {| MarkdownScript.convert_markdown := λ name,
       if String.eqb name "b.pdf" then Raise "Input document b.pdf is not valid."
       else Return ("# " +:+ name);
     MarkdownScript.write_text_outcome := λ _ _, Written;
     MarkdownScript.stdout_refuses := utf8 |}.

(** The chunker of the chunk printer. *)
Definition hybrid : ChunkScript.HybridChunker unit string :=
  {| ChunkScript.hybrid_chunk := λ _, IterYield P2 IterDone;
     ChunkScript.hybrid_contextualize := HierarchicalChunker.contextualize |}.

(** The same directory for the chunk printer. *)
Definition chunk_env : ChunkScript.Env unit string :=
  {| ChunkScript.convert_document := λ name,
       if String.eqb name "b.pdf" then Raise "Input document b.pdf is not valid."
       else Return ();
     ChunkScript.new_HybridChunker := Return hybrid;
     ChunkScript.stdout_refuses := utf8 |}.
End Demo.

(** ** Further views *)

(** The generator ran to its end: it stopped by itself rather than by
    raising. *)
Fixpoint finished {Json} (it : ChunkIter Json) : bool :=
  match it with
  | IterDone => true
  | IterYield _ rest => finished rest
  | IterRaise _ => false
  end.

(** The paths a script announced as saved, and the files it reported
    as failed. *)
Definition saved (out : list Line) : list string :=
  omap (λ l, match l with Saved path => Some path | _ => None end) out.

Definition failed (out : list Line) : list string :=
  omap (λ l, match l with ErrorConverting name _ => Some name | _ => None end) out.

(** The numbers of the chunk headers a script printed. *)
Definition headers (out : list Line) : list nat :=
  omap (λ l, match l with ChunkHeader i => Some i | _ => None end) out.

(** The event is a call of the chunker or of the embeddings client. *)
Definition downstream (ev : Event) : bool :=
  match ev with
  | EvChunk | EvEmbeddingsCreate _ _ => true
  | _ => false
  end.

(** The event is a call of the embeddings client. *)
Definition embeds (ev : Event) : bool :=
  match ev with
  | EvEmbeddingsCreate _ _ => true
  | _ => false
  end.

(** ** The cached getters and the endpoints *)

(** [@lru_cache] on a function without arguments, over a state in
    which [cached] reads and [store] fills the one slot of its cache: a
    value computed before is returned without a call, a value just
    computed is kept, and a call that raises leaves the slot empty. *)
Definition lru_cache {S A} (cached : S → option A) (store : A → S → S)
    (f : StateExc S A) : StateExc S A := λ σ,
  match cached σ with
  | Some v => (Return v, σ)
  | None =>
      match f σ with
      | (Return v, σ') => (Return v, store v σ')
      | (Raise e, σ') => (Raise e, σ')
      end
  end.

(** What a request ends in: an exception that leaves the handler as it
    is, or the handler's answer. *)
Inductive Outcome (R : Type) : Type :=
| Unhandled (e : string)
| Answer (r : HTTPException + R).
Arguments Unhandled {R} e.
Arguments Answer {R} r.

Module Getters.
Section Getters.
Context {Document Json Float : Type}.

(** [Settings]: the one field the code reads. *)
Record Settings : Type := { openai_api_key : string }.

(** The three objects the getters build, by the methods the handlers
    call on them, and the temporary files of the operating system. *)
Record DocumentConverter : Type := {
  dc_convert : string → list Byte.byte → Exc Document;
  dc_export_to_text : Document → Exc string
}.

Record HierarchicalChunker : Type := {
  hc_chunk : Document → ChunkIter Json;
  hc_contextualize : Chunk Json → Exc (string * Chunk Json)
}.

Record OpenAI : Type := {
  embeddings_create_ : string → list string → Exc (list (Embedding Float))
}.

Record Tempfile : Type := {
  tf_mkstemp : gmap string (list Byte.byte) → Exc string;
  tf_write : string → list Byte.byte → Exc unit
}.

(** What the four constructors do when they are called now:
    [Settings()] reads the environment variables and the [.env] file
    and raises when the key is missing; [OpenAI(api_key=...)] takes the
    key. *)
Record Constructors : Type := {
  new_Settings : Exc Settings;
  new_DocumentConverter : Exc DocumentConverter;
  new_HierarchicalChunker : Exc HierarchicalChunker;
  new_OpenAI : string → Exc OpenAI
}.

(** The caches of the four getters of a process. *)
Record Caches : Type := {
  settings_cache : option Settings;
  converter_cache : option DocumentConverter;
  chunker_cache : option HierarchicalChunker;
  client_cache : option OpenAI
}.

Definition no_caches : Caches :=
  {| settings_cache := None; converter_cache := None;
     chunker_cache := None; client_cache := None |}.

Definition store_settings (v : Settings) (c : Caches) : Caches :=
  {| settings_cache := Some v; converter_cache := converter_cache c;
     chunker_cache := chunker_cache c; client_cache := client_cache c |}.

Definition store_converter (v : DocumentConverter) (c : Caches) : Caches :=
  {| settings_cache := settings_cache c; converter_cache := Some v;
     chunker_cache := chunker_cache c; client_cache := client_cache c |}.

Definition store_chunker (v : HierarchicalChunker) (c : Caches) : Caches :=
  {| settings_cache := settings_cache c; converter_cache := converter_cache c;
     chunker_cache := Some v; client_cache := client_cache c |}.

Definition store_client (v : OpenAI) (c : Caches) : Caches :=
  {| settings_cache := settings_cache c; converter_cache := converter_cache c;
     chunker_cache := chunker_cache c; client_cache := Some v |}.

Variable k : Constructors.

Definition get_settings : StateExc Caches Settings :=
  lru_cache settings_cache store_settings (lift (new_Settings k)).

Definition get_document_converter : StateExc Caches DocumentConverter :=
  lru_cache converter_cache store_converter (lift (new_DocumentConverter k)).

Definition get_chunker : StateExc Caches HierarchicalChunker :=
  lru_cache chunker_cache store_chunker (lift (new_HierarchicalChunker k)).

Definition get_openai_client : StateExc Caches OpenAI :=
  lru_cache client_cache store_client
    (settings ← get_settings;
     lift (new_OpenAI k (openai_api_key settings))).

(** The environment of a handler that holds these objects. *)
Definition environment (tf : Tempfile) (converter : DocumentConverter)
    (chunker : HierarchicalChunker) (openai_client : OpenAI)
  : Env Document Json Float :=
  {| mkstemp := tf_mkstemp tf;
     tmp_write := tf_write tf;
     converter_convert := dc_convert converter;
     export_to_text := dc_export_to_text converter;
     chunker_chunk := hc_chunk chunker;
     chunker_contextualize := hc_contextualize chunker;
     embeddings_create := embeddings_create_ openai_client |}.

(** The embeddings client of [pdf-ingestion/main.py], which has none. *)
Definition no_client : OpenAI :=
  {| embeddings_create_ := λ _ _, Raise "no embeddings client" |}.
End Getters.
Arguments DocumentConverter : clear implicits.
Arguments HierarchicalChunker : clear implicits.
Arguments OpenAI : clear implicits.
Arguments Constructors : clear implicits.
Arguments Caches : clear implicits.
End Getters.

Module Endpoint.
Section Endpoint.
Context {Document Json Float : Type}.
Variable tf : Getters.Tempfile.
Variable k : Getters.Constructors Document Json Float.

(** [process_pdf_document] of [pdf-ingestion-service/main.py] from its
    first line: the check of the filename, the three getters, outside
    the [try], and then the [try] block with what they returned. *)
Definition process_pdf_document (file : UploadFile)
    (c : Getters.Caches Document Json Float) (w : World)
  : Outcome (Service.ProcessedDocumentResponse Json Float)
    * Getters.Caches Document Json Float * World :=
  if unsupported file then
    (Answer (inl {| status_code := 400; detail := "Only PDF files are supported" |}),
     c, w)
  else
    match (converter ← Getters.get_document_converter k;
           chunker ← Getters.get_chunker k;
           openai_client ← Getters.get_openai_client k;
           mret (Getters.environment tf converter chunker openai_client)) c with
    | (Raise e, c') => (Unhandled e, c', w)
    | (Return env, c') =>
        let '(r, w') := Service.process_pdf_document env file w in
        (Answer r, c', w')
    end.

(** [extract_pdf_chunks] of [pdf-ingestion/main.py] from its first
    line; it has the first two getters only. *)
Definition extract_pdf_chunks (file : UploadFile)
    (c : Getters.Caches Document Json Float) (w : World)
  : Outcome (Chunks.ChunksResponse Json)
    * Getters.Caches Document Json Float * World :=
  if unsupported file then
    (Answer (inl {| status_code := 400; detail := "Only PDF files are supported" |}),
     c, w)
  else
    match (converter ← Getters.get_document_converter k;
           chunker ← Getters.get_chunker k;
           mret (Getters.environment tf converter chunker (@Getters.no_client Float))) c with
    | (Raise e, c') => (Unhandled e, c', w)
    | (Return env, c') =>
        let '(r, w') := Chunks.extract_pdf_chunks env file w in
        (Answer r, c', w')
    end.
End Endpoint.
End Endpoint.

(** ** Further sample runs *)

Module Cases.
(** A disk that already holds another upload. *)
Definition busy : World :=
  {| fs := {["/tmp/other.pdf" := [Byte.x25; Byte.x50]]}; trace := [] |}.

(** A chunker that yields the first paragraph and then raises. *)
Definition broken : ChunkIter string :=
  IterYield Demo.P1 (IterRaise "page 2 could not be parsed").

(** An upload whose [read] raises. *)
Definition unreadable : UploadFile :=
  {| filename := Some "rules.pdf";
     read := Raise "I/O operation on closed file." |}.

(** The directory of [Demo.markdown_env] on a standard output that
    cannot encode the marks. *)
Definition markdown_ascii : MarkdownScript.Env :=
  {| MarkdownScript.convert_markdown :=
       MarkdownScript.convert_markdown Demo.markdown_env;
     MarkdownScript.write_text_outcome := λ _ _, Written;
     MarkdownScript.stdout_refuses := Demo.ascii_only |}.

(** A disk that fills up while the text of [b.pdf] is written. *)
Definition markdown_full : MarkdownScript.Env :=
  {| MarkdownScript.convert_markdown := λ name, Return ("# " +:+ name);
     MarkdownScript.write_text_outcome := λ path _,
       if String.eqb path "md/b.md"
       then WriteFailed "[Errno 28] No space left on device" ""
       else Written;
     MarkdownScript.stdout_refuses := Demo.utf8 |}.

(** The objects of [Demo.healthy], one by one. *)
Definition converter : Getters.DocumentConverter unit :=
  {| Getters.dc_convert := λ _ _, Return ();
     Getters.dc_export_to_text := λ _, Return "Introduction" |}.

Definition chunker : Getters.HierarchicalChunker unit string :=
  {| Getters.hc_chunk := λ _, Demo.two_paragraphs;
     Getters.hc_contextualize := HierarchicalChunker.contextualize |}.

Definition client : Getters.OpenAI nat :=
  {| Getters.embeddings_create_ := λ _, Demo.one_each |}.

Definition tempfile : Getters.Tempfile :=
  {| Getters.tf_mkstemp := λ _, Return "/tmp/tmpk3v9";
     Getters.tf_write := λ _ _, Return () |}.

(** Constructors that build these objects, given what [Settings()]
    does. *)
Definition constructors (settings : Exc Getters.Settings)
  : Getters.Constructors unit string nat :=
  {| Getters.new_Settings := settings;
     Getters.new_DocumentConverter := Return converter;
     Getters.new_HierarchicalChunker := Return chunker;
     Getters.new_OpenAI := λ _, Return client |}.

(** [Settings()] with and without the key in the environment. *)
Definition with_key : Exc Getters.Settings :=
  Return {| Getters.openai_api_key := "sk-test" |}.

Definition without_key : Exc Getters.Settings :=
  Raise "1 validation error for Settings: openai_api_key Field required".

(** The caches once every getter was called. *)
Definition warm : Getters.Caches unit string nat :=
  {| Getters.settings_cache := Some {| Getters.openai_api_key := "sk-test" |};
     Getters.converter_cache := Some converter;
     Getters.chunker_cache := Some chunker;
     Getters.client_cache := Some client |}.
End Cases.

(** * Properties *)

(** ** Strings *)

Lemma append_String (x : ascii) (a b : string) :
  String x a +:+ b = String x (a +:+ b).
Proof. reflexivity. Qed.

Lemma append_assoc (a b c : string) : (a +:+ b) +:+ c = a +:+ b +:+ c.
Proof. induction a as [|x a IH]; [done|]. by rewrite !append_String, IH. Qed.

Lemma append_empty_r (a : string) : a +:+ "" = a.
Proof. induction a as [|x a IH]; [done|]. by rewrite append_String, IH. Qed.

Lemma length_append (a b : string) :
  String.length (a +:+ b) = String.length a + String.length b.
Proof. induction a as [|x a IH]; [done|]. rewrite append_String. simpl. by rewrite IH. Qed.

Lemma substring_all (s : string) : String.substring 0 (String.length s) s = s.
Proof. induction s as [|x s IH]; simpl; [done | by rewrite IH]. Qed.

Lemma substring_append (a b : string) :
  String.substring (String.length a) (String.length b) (a +:+ b) = b.
Proof.
  induction a as [|x a IH]; [apply substring_all|].
  rewrite append_String. simpl. apply IH.
Qed.

Lemma substring_split (s : string) (k m : nat) :
  k + m = String.length s →
  s = String.substring 0 k s +:+ String.substring k m s.
Proof.
  revert k; induction s as [|x s IH]; intros k Hk; simpl in *.
  - assert (k = 0) as -> by lia. assert (m = 0) as -> by lia. done.
  - destruct k as [|k]; simpl.
    + simpl in Hk. subst m. simpl. by rewrite substring_all.
    + rewrite append_String. f_equal. apply IH. lia.
Qed.

(** [endswith] holds exactly of the strings that end with the suffix. *)
Lemma endswith_spec (s suffix : string) :
  endswith s suffix = true ↔ ∃ before, s = before +:+ suffix.
Proof.
  unfold endswith. split.
  - generalize (String.length suffix) as m. intros m.
    case_decide as Hle; [|done]. intros Heq%bool_decide_eq_true.
    exists (String.substring 0 (String.length s - m) s).
    rewrite <- Heq. apply substring_split. lia.
  - intros [before ->]. rewrite length_append.
    rewrite decide_True by lia. apply bool_decide_eq_true.
    replace (String.length before + String.length suffix - String.length suffix)
      with (String.length before) by lia.
    apply substring_append.
Qed.

(** The name of a staged copy is never the empty string, so the
    truthiness test of the cleanup sees it. *)
Lemma staged_name_truthy (stem5 : string) : String.eqb (stem5 +:+ ".pdf") "" = false.
Proof. by destruct stem5. Qed.

Lemma Substring_suffix (t before : string) : Substring t (before +:+ t).
Proof. exists before, "". by rewrite append_empty_r. Qed.

(** The last item of a joined list ends the string. *)
Lemma join_last (delim : string) (items : list string) (t : string) :
  ∃ before, join delim (items ++ [t]) = before +:+ t.
Proof.
  induction items as [|x items [before IH]].
  - by exists "".
  - exists (x +:+ delim +:+ before).
    change (join delim ((x :: items) ++ [t]))
      with (join delim (x :: (items ++ [t]))).
    destruct (items ++ [t]) as [|y rest] eqn:Hrest.
    { by destruct items. }
    change (join delim (x :: y :: rest)) with (x +:+ delim +:+ join delim (y :: rest)).
    by rewrite IH, !append_assoc.
Qed.

(** ** Running a handler *)

(** Unfolds the statements of a [try] block down to the calls of the
    environment. *)
Ltac run :=
  unfold NamedTemporaryFile, write, convert, chunk, create, cleanup, unlink,
    lift, log, set_fs, get_fs, set_tmp_file_path, get_tmp_file_path;
  unfold mbind, mret, StateExc_bind, StateExc_ret; simpl.

(** Case analysis on the outcome of the call the goal is waiting for;
    the exceptional case is closed when the goal says the handler
    answered. *)
Ltac call H :=
  match goal with
  | |- context [match ?m with Raise _ => _ | Return _ => _ end] =>
      destruct m eqn:H; simpl; [try done|]
  end.

(** ** The loops of [process_pdf_document] *)

Section ServiceLoops.
Context {Document Json Float : Type}.
Variable env : Env Document Json Float.

Lemma chunk_info_inv (idx : nat) (c : Chunk Json) (info : Service.ChunkInfo Json) (s : string) :
  Service.chunk_info env idx c = Return (info, s) →
  describes env c (Service.info_text info) (Service.info_contextualized_text info)
    (Service.info_meta info)
  ∧ Service.info_contextualized_text info = s
  ∧ Service.info_index info = idx.
Proof.
  unfold Service.chunk_info, describes, mbind, mret, Exc_bind, Exc_ret.
  destruct (chunker_contextualize env c) as [|[s' c']] eqn:Hctx; [done|].
  destruct (export_meta (chunk_meta c')) as [|m] eqn:Hmeta; [done|].
  intros [= <- <-]; simpl. eauto 6.
Qed.

(** The first loop extends its two lists in step, one entry per chunk
    the generator yields, numbered from [idx]. *)
Lemma chunk_data_loop_inv (it : ChunkIter Json) (idx : nat)
    (cd cd' : list (Service.ChunkInfo Json)) (ct ct' : list string) :
  Service.chunk_data_loop env it idx cd ct = Return (cd', ct') →
  ∃ infos,
    cd' = cd ++ infos
    ∧ ct' = ct ++ map Service.info_contextualized_text infos
    ∧ length infos = length (yielded it)
    ∧ ∀ k c, yielded it !! k = Some c →
        ∃ info, infos !! k = Some info
          ∧ describes env c (Service.info_text info)
              (Service.info_contextualized_text info) (Service.info_meta info)
          ∧ Service.info_index info = idx + k.
Proof.
  revert idx cd ct.
  induction it as [|c rest IH|e]; intros idx cd ct; simpl.
  - intros [= <- <-]. exists []. rewrite !app_nil_r. by repeat split.
  - unfold mbind, Exc_bind.
    destruct (Service.chunk_info env idx c) as [|[info s]] eqn:Hinfo; [done|].
    intros (infos & -> & -> & Hlen & Hall)%IH.
    apply chunk_info_inv in Hinfo as (Hdesc & <- & Hidx).
    exists (info :: infos). rewrite <- !(assoc_L (++)). simpl.
    repeat split; [by rewrite Hlen|].
    intros [|k] c0 Hc0; simpl in *.
    + injection Hc0 as <-. exists info. by rewrite Nat.add_0_r.
    + destruct (Hall k c0 Hc0) as (info' & ? & ? & ?).
      exists info'. repeat split; [done..|lia].
  - done.
Qed.

(** The second loop pairs the entries with the vectors from position
    [i] on, and raises exactly when it runs out of vectors. *)
Lemma chunks_loop_run (data : list (Embedding Float))
    (cd : list (Service.ChunkInfo Json)) (i : nat) (acc : list (Service.ChunkResponse Json Float)) :
  Service.chunks_loop data cd i acc =
    if decide (cd = [] ∨ i + length cd ≤ length data)
    then Return (acc ++ zip_with Service.response cd (drop i data))
    else Raise "list index out of range".
Proof.
  revert i acc. induction cd as [|info rest IH]; intros i acc;
    cbn [Service.chunks_loop].
  - rewrite decide_True by auto. by rewrite app_nil_r.
  - unfold mbind, Exc_bind, Service.getitem.
    destruct (data !! i) as [d|] eqn:Hd.
    + rewrite IH. apply lookup_lt_Some in Hd as Hlt.
      rewrite (drop_S _ _ _ Hd). simpl. rewrite <- (assoc_L (++)). simpl.
      repeat case_decide; try done; exfalso;
        destruct rest; simpl in *; intuition (try discriminate; lia).
    + apply lookup_ge_None in Hd. rewrite decide_False; [done|].
      intros [?|?]; [done | simpl in *; lia].
Qed.

Lemma chunks_loop_all (data : list (Embedding Float)) (cd : list (Service.ChunkInfo Json)) :
  Service.chunks_loop data cd 0 [] =
    if decide (length cd ≤ length data)
    then Return (zip_with Service.response cd data)
    else Raise "list index out of range".
Proof.
  rewrite chunks_loop_run. simpl. rewrite drop_0.
  destruct (decide (length cd ≤ length data)).
  - by rewrite decide_True by auto.
  - rewrite decide_False; [done|]. intros [->|?]; simpl in *; lia.
Qed.
End ServiceLoops.

(** ** The runs of [process_pdf_document] *)

Section ServiceRuns.
Context {Document Json Float : Type}.
Variable env : Env Document Json Float.

(** The answer once the chunks are collected: whatever the embeddings
    call and the second loop do, the staged copy is unlinked. *)
Lemma process_pdf_document_run (file : UploadFile) (w : World) (doc : Document)
    (ft : string) (cd : list (Service.ChunkInfo Json)) (texts : list string) :
  unsupported file = false →
  converted env file w = Return doc →
  export_to_text env doc = Return ft →
  Service.chunk_data_loop env (chunker_chunk env doc) 0 [] [] = Return (cd, texts) →
  ∃ path content,
    staged_path env w = Return path ∧ read file = Return content ∧
    Service.process_pdf_document env file w =
      (match embeddings_create env Service.MODEL texts with
       | Raise e => inl {| status_code := 500; detail := "Error processing PDF: " +:+ e |}
       | Return data =>
           match Service.chunks_loop data cd 0 [] with
           | Raise e =>
               inl {| status_code := 500; detail := "Error processing PDF: " +:+ e |}
           | Return chunks =>
               inr {| Service.chunks := chunks;
                      Service.total_chunks := length chunks;
                      Service.full_text := ft |}
           end
       end,
       {| fs := delete path (<[path := content]> (<[path := []]> (fs w)));
          trace := trace w ++ [EvNamedTemporaryFile path; EvConvert path; EvChunk;
                               EvEmbeddingsCreate Service.MODEL texts;
                               EvUnlink path] |}).
Proof.
  intros Hun Hdoc Hft Hcd. unfold Service.process_pdf_document. rewrite Hun.
  revert Hdoc. unfold converted, staged_path, Service.try_body. run.
  unfold Exc_bind, Exc_ret.
  destruct (mkstemp env (fs w)) as [|stem0] eqn:Hstem; [done|]. simpl.
  destruct (read file) as [|content] eqn:Hread; [done|]. simpl.
  destruct (tmp_write env _ content) as [|[]] eqn:Hwr; [done|]. simpl.
  intros Hdoc. rewrite lookup_insert_eq, Hdoc. simpl. rewrite Hft. simpl.
  rewrite Hcd. simpl.
  exists (stem0 +:+ ".pdf"), content. do 2 (split; [done|]).
  rewrite <- !(assoc_L (++)). simpl.
  destruct (embeddings_create env Service.MODEL texts) as [e|data]; simpl.
  { rewrite staged_name_truthy. simpl. by rewrite <- (assoc_L (++)). }
  destruct (Service.chunks_loop data cd 0 []) as [e|chunks]; simpl;
    rewrite staged_name_truthy; simpl; by rewrite <- ?(assoc_L (++)).
Qed.

(** What a successful answer tells about the run. *)
Lemma process_pdf_document_inr (file : UploadFile) (w w' : World)
    (resp : Service.ProcessedDocumentResponse Json Float) :
  Service.process_pdf_document env file w = (inr resp, w') →
  ∃ path doc cd texts data,
    unsupported file = false ∧
    staged_path env w = Return path ∧
    converted env file w = Return doc ∧
    export_to_text env doc = Return (Service.full_text resp) ∧
    Service.chunk_data_loop env (chunker_chunk env doc) 0 [] [] = Return (cd, texts) ∧
    embeddings_create env Service.MODEL texts = Return data ∧
    Service.chunks_loop data cd 0 [] = Return (Service.chunks resp) ∧
    Service.total_chunks resp = length (Service.chunks resp) ∧
    trace w' = trace w ++ [EvNamedTemporaryFile path; EvConvert path; EvChunk;
                           EvEmbeddingsCreate Service.MODEL texts; EvUnlink path] ∧
    fs w' !! path = None.
Proof.
  unfold Service.process_pdf_document.
  destruct (unsupported file) eqn:Hun; [done|].
  unfold converted, staged_path, Service.try_body. run. unfold Exc_bind, Exc_ret.
  call Hstem. call Hread. call Hwr. rewrite lookup_insert_eq.
  call Hdoc. call Hft.
  destruct (Service.chunk_data_loop env _ 0 [] []) as [|[cd texts]] eqn:Hcd;
    simpl; [done|].
  call Hdata. call Hchunks. rewrite staged_name_truthy. simpl.
  intros [= <- <-]. simpl. eexists _, _, cd, texts, _.
  rewrite <- !(assoc_L (++)), lookup_delete_eq. by repeat split.
Qed.
End ServiceRuns.

(** ** The loop and the runs of [extract_pdf_chunks] *)

Section ChunksRuns.
Context {Document Json Float : Type}.
Variable env : Env Document Json Float.

Lemma chunk_response_inv (c : Chunk Json) (r : Chunks.ChunkResponse Json) :
  Chunks.chunk_response env c = Return r →
  describes env c (Chunks.text r) (Chunks.contextualized_text r) (Chunks.meta r).
Proof.
  unfold Chunks.chunk_response, describes, mbind, mret, Exc_bind, Exc_ret.
  destruct (chunker_contextualize env c) as [|[s' c']] eqn:Hctx; [done|].
  destruct (export_meta (chunk_meta c')) as [|m] eqn:Hmeta; [done|].
  intros [= <-]; simpl. eauto.
Qed.

Lemma extract_chunks_loop_inv (it : ChunkIter Json)
    (acc out : list (Chunks.ChunkResponse Json)) :
  Chunks.chunks_loop env it acc = Return out →
  ∃ rs,
    out = acc ++ rs
    ∧ length rs = length (yielded it)
    ∧ ∀ k c, yielded it !! k = Some c →
        ∃ r, rs !! k = Some r
          ∧ describes env c (Chunks.text r) (Chunks.contextualized_text r)
              (Chunks.meta r).
Proof.
  revert acc. induction it as [|c rest IH|e]; intros acc; simpl.
  - intros [= <-]. exists []. by rewrite app_nil_r.
  - unfold mbind, Exc_bind.
    destruct (Chunks.chunk_response env c) as [|r] eqn:Hr; [done|].
    intros (rs & -> & Hlen & Hall)%IH. apply chunk_response_inv in Hr.
    exists (r :: rs). rewrite <- (assoc_L (++)). simpl.
    repeat split; [by rewrite Hlen|].
    intros [|k] c0 Hc0; simpl in *; [|by apply Hall].
    injection Hc0 as <-. by exists r.
  - done.
Qed.

(** The answer once the upload is converted: whatever the loop does,
    the staged copy is unlinked. *)
Lemma extract_pdf_chunks_run (file : UploadFile) (w : World) (doc : Document) :
  unsupported file = false →
  converted env file w = Return doc →
  ∃ path content,
    staged_path env w = Return path ∧ read file = Return content ∧
    Chunks.extract_pdf_chunks env file w =
      (match Chunks.chunks_loop env (chunker_chunk env doc) [] with
       | Raise e => inl {| status_code := 500; detail := "Error processing PDF: " +:+ e |}
       | Return chunks =>
           inr {| Chunks.chunks := chunks; Chunks.total_chunks := length chunks |}
       end,
       {| fs := delete path (<[path := content]> (<[path := []]> (fs w)));
          trace := trace w ++ [EvNamedTemporaryFile path; EvConvert path; EvChunk;
                               EvUnlink path] |}).
Proof.
  intros Hun Hdoc. unfold Chunks.extract_pdf_chunks. rewrite Hun.
  revert Hdoc. unfold converted, staged_path, Chunks.try_body. run.
  unfold Exc_bind, Exc_ret.
  destruct (mkstemp env (fs w)) as [|stem0] eqn:Hstem; [done|]. simpl.
  destruct (read file) as [|content] eqn:Hread; [done|]. simpl.
  destruct (tmp_write env _ content) as [|[]] eqn:Hwr; [done|]. simpl.
  intros Hdoc. rewrite lookup_insert_eq, Hdoc. simpl.
  exists (stem0 +:+ ".pdf"), content. do 2 (split; [done|]).
  rewrite <- !(assoc_L (++)). simpl.
  destruct (Chunks.chunks_loop env (chunker_chunk env doc) []) as [e|chunks]; simpl;
    rewrite staged_name_truthy; simpl; by rewrite <- ?(assoc_L (++)).
Qed.

(** What a successful answer tells about the run. *)
Lemma extract_pdf_chunks_inr (file : UploadFile) (w w' : World)
    (resp : Chunks.ChunksResponse Json) :
  Chunks.extract_pdf_chunks env file w = (inr resp, w') →
  ∃ path doc,
    unsupported file = false ∧
    staged_path env w = Return path ∧
    converted env file w = Return doc ∧
    Chunks.chunks_loop env (chunker_chunk env doc) [] = Return (Chunks.chunks resp) ∧
    Chunks.total_chunks resp = length (Chunks.chunks resp) ∧
    trace w' = trace w ++ [EvNamedTemporaryFile path; EvConvert path; EvChunk;
                           EvUnlink path] ∧
    fs w' !! path = None.
Proof.
  unfold Chunks.extract_pdf_chunks.
  destruct (unsupported file) eqn:Hun; [done|].
  unfold converted, staged_path, Chunks.try_body. run. unfold Exc_bind, Exc_ret.
  call Hstem. call Hread. call Hwr. rewrite lookup_insert_eq.
  call Hdoc. call Hchunks. rewrite staged_name_truthy. simpl.
  intros [= <- <-]. simpl. eexists _, _.
  rewrite <- !(assoc_L (++)), lookup_delete_eq. by repeat split.
Qed.
End ChunksRuns.

(** ** Lists *)

Lemma fmap_zip_with_l {A B C D} (f : C → D) (g : A → B → C) (h : A → D)
    (l : list A) (k : list B) :
  (∀ x y, f (g x y) = h x) →
  length l ≤ length k →
  f <$> zip_with g l k = h <$> l.
Proof.
  intros Hfg. revert k. induction l as [|x l IH]; intros [|y k] Hlen;
    simpl in *; try done; try lia.
  rewrite Hfg. f_equal. apply IH. lia.
Qed.

Lemma fmap_index_seq {A} (f : A → nat) (l : list A) (start : nat) :
  (∀ i x, l !! i = Some x → f x = start + i) →
  f <$> l = seq start (length l).
Proof.
  revert start. induction l as [|x l IH]; intros start Hl; simpl; [done|].
  f_equal.
  - rewrite (Hl 0 x); [lia | done].
  - apply IH. intros i y Hy. rewrite (Hl (S i) y); [lia | done].
Qed.

(** ** The chunk records of a processed document *)

Section ServiceRecords.
Context {Document Json Float : Type}.
Variable env : Env Document Json Float.

(** The records of a successful answer, position by position: record
    [i] is read off the [i]-th chunk the generator yielded, carries the
    index [i] and the [i]-th vector of the client's answer to the one
    call that submitted the contextualized texts of all records. *)
Lemma process_pdf_document_records (file : UploadFile) (w : World)
    (resp : Service.ProcessedDocumentResponse Json Float) :
  (Service.process_pdf_document env file w).1 = inr resp →
  ∃ doc data,
    converted env file w = Return doc
    ∧ embeddings_create env Service.MODEL
        (Service.contextualized_text <$> Service.chunks resp) = Return data
    ∧ length (Service.chunks resp) = length (yielded (chunker_chunk env doc))
    ∧ ∀ i c, yielded (chunker_chunk env doc) !! i = Some c →
        ∃ r d, Service.chunks resp !! i = Some r
          ∧ data !! i = Some d
          ∧ describes env c (Service.text r) (Service.contextualized_text r)
              (Service.meta r)
          ∧ Service.index r = i
          ∧ Service.embedding r = data_embedding d.
Proof.
  destruct (Service.process_pdf_document env file w) as [res w'] eqn:Hrun.
  simpl. intros ->.
  apply process_pdf_document_inr in Hrun
    as (path & doc & cd & texts & data & _ & _ & Hdoc & _ & Hcd & Hdata & Hloop & _).
  apply chunk_data_loop_inv in Hcd as (infos & -> & -> & Hlen & Hall).
  simpl in *. rewrite chunks_loop_all in Hloop.
  case_decide as Hle; [|done]. injection Hloop as Hchunks.
  exists doc, data. rewrite <- Hchunks. repeat split; [done| | |].
  - rewrite (fmap_zip_with_l _ _ Service.info_contextualized_text); done.
  - rewrite length_zip_with. lia.
  - intros i c Hc. destruct (Hall i c Hc) as (info & Hinfo & Hdesc & Hidx).
    destruct (lookup_lt_is_Some_2 data i) as [d Hd].
    { apply lookup_lt_Some in Hinfo. lia. }
    exists (Service.response info d), d.
    rewrite lookup_zip_with, Hinfo. simpl. rewrite Hd. simpl.
    by repeat split.
Qed.
End ServiceRecords.

(** ** Claims about [process_pdf_document] alone *)

(** C2.  In a successful answer of [process_pdf_document] the index
    fields of the chunk records are 0, 1, 2, ... without a gap, and
    they follow the order of iteration: there are as many records as
    chunks the generator yielded, and record [i] carries the index [i]
    and the fields read off the [i]-th chunk. *)
Theorem chunk_indices_contiguous {Document Json Float : Type}
    (env : Env Document Json Float) (file : UploadFile) (w : World)
    (resp : Service.ProcessedDocumentResponse Json Float) :
  (Service.process_pdf_document env file w).1 = inr resp →
  Service.index <$> Service.chunks resp = seq 0 (length (Service.chunks resp))
  ∧ ∃ doc,
      converted env file w = Return doc
      ∧ length (Service.chunks resp) = length (yielded (chunker_chunk env doc))
      ∧ ∀ i c, yielded (chunker_chunk env doc) !! i = Some c →
          ∃ r, Service.chunks resp !! i = Some r
            ∧ Service.index r = i
            ∧ describes env c (Service.text r) (Service.contextualized_text r)
                (Service.meta r).
Proof.
  intros (doc & data & Hdoc & _ & Hlen & Hall)%process_pdf_document_records.
  split.
  - apply fmap_index_seq. intros i r Hr.
    destruct (lookup_lt_is_Some_2 (yielded (chunker_chunk env doc)) i) as [c Hc].
    { apply lookup_lt_Some in Hr. lia. }
    destruct (Hall i c Hc) as (r' & d & Hr' & _ & _ & Hidx & _).
    simpl. congruence.
  - exists doc. repeat split; [done..|].
    intros i c Hc. destruct (Hall i c Hc) as (r & d & Hr & _ & Hdesc & Hidx & _).
    by exists r.
Qed.

Lemma chunk_indices_contiguous_witness :
  (Service.process_pdf_document Demo.healthy Demo.pdf Demo.w0).1 = inr Demo.processed
  ∧ Service.index <$> Service.chunks Demo.processed
      = seq 0 (length (Service.chunks Demo.processed))
  ∧ ∃ doc,
      converted Demo.healthy Demo.pdf Demo.w0 = Return doc
      ∧ length (Service.chunks Demo.processed)
        = length (yielded (chunker_chunk Demo.healthy doc))
      ∧ ∀ i c, yielded (chunker_chunk Demo.healthy doc) !! i = Some c →
          ∃ r, Service.chunks Demo.processed !! i = Some r
            ∧ Service.index r = i
            ∧ describes Demo.healthy c (Service.text r)
                (Service.contextualized_text r) (Service.meta r).
Proof.
  split; [by vm_compute|].
  apply (chunk_indices_contiguous Demo.healthy Demo.pdf Demo.w0 Demo.processed).
  by vm_compute.
Defined.

(** C9.  A successful run of [process_pdf_document] calls the
    embeddings client once, with the contextualized texts of all chunk
    records in their order as its one input, and the embedding of the
    record at position [i] is the [i]-th vector of the answer. *)
Theorem embeddings_zipped_by_position {Document Json Float : Type}
    (env : Env Document Json Float) (file : UploadFile) (w w' : World)
    (resp : Service.ProcessedDocumentResponse Json Float) :
  Service.process_pdf_document env file w = (inr resp, w') →
  ∃ path data,
    trace w' = trace w ++
      [EvNamedTemporaryFile path; EvConvert path; EvChunk;
       EvEmbeddingsCreate Service.MODEL
         (Service.contextualized_text <$> Service.chunks resp);
       EvUnlink path]
    ∧ embeddings_create env Service.MODEL
        (Service.contextualized_text <$> Service.chunks resp) = Return data
    ∧ ∀ i r, Service.chunks resp !! i = Some r →
        ∃ d, data !! i = Some d ∧ Service.embedding r = data_embedding d.
Proof.
  intros Hrun.
  pose proof (process_pdf_document_records env file w resp) as Hrec.
  rewrite Hrun in Hrec. destruct (Hrec eq_refl) as (doc & data & _ & Hdata & Hlen & Hall).
  apply process_pdf_document_inr in Hrun
    as (path & doc' & cd & texts & data' & _ & _ & _ & _ & Hcd & Hdata' & Hloop & _ & Htrace & _).
  assert (texts = Service.contextualized_text <$> Service.chunks resp) as ->.
  { apply chunk_data_loop_inv in Hcd as (infos & -> & -> & _). simpl in *.
    rewrite chunks_loop_all in Hloop. case_decide; [|done].
    injection Hloop as <-.
    by rewrite (fmap_zip_with_l _ _ Service.info_contextualized_text). }
  exists path, data. repeat split; [done..|].
  intros i r Hr.
  destruct (lookup_lt_is_Some_2 (yielded (chunker_chunk env doc)) i) as [c Hc].
  { apply lookup_lt_Some in Hr. lia. }
  destruct (Hall i c Hc) as (r' & d & Hr' & Hd & _ & _ & Hemb).
  exists d. split; [done | congruence].
Qed.

Lemma embeddings_zipped_by_position_witness :
  Service.process_pdf_document Demo.healthy Demo.pdf Demo.w0
    = (inr Demo.processed, Demo.w1)
  ∧ ∃ path data,
      trace Demo.w1 = trace Demo.w0 ++
        [EvNamedTemporaryFile path; EvConvert path; EvChunk;
         EvEmbeddingsCreate Service.MODEL
           (Service.contextualized_text <$> Service.chunks Demo.processed);
         EvUnlink path]
      ∧ embeddings_create Demo.healthy Service.MODEL
          (Service.contextualized_text <$> Service.chunks Demo.processed)
        = Return data
      ∧ ∀ i r, Service.chunks Demo.processed !! i = Some r →
          ∃ d, data !! i = Some d ∧ Service.embedding r = data_embedding d.
Proof.
  split; [by vm_compute|].
  apply (embeddings_zipped_by_position Demo.healthy Demo.pdf Demo.w0 Demo.w1
           Demo.processed).
  by vm_compute.
Defined.

(** C1, as the code has it.  [process_pdf_document] never compares the
    number of vectors with the number of texts it submitted; it reads
    the vectors by position.  When the client returns fewer vectors
    than texts, the read past the end raises and the answer is the
    HTTP 500 of every processing failure, with the message of the
    [IndexError]: no chunk record is returned, so none carries an
    embedding.  When the client returns at least as many vectors as
    texts, the answer is a success whose records carry the first
    vectors in order; the surplus is dropped and nothing is padded. *)
Theorem embedding_count_mismatch {Document Json Float : Type}
    (env : Env Document Json Float) (file : UploadFile) (w : World)
    (ft : string) (cd : list (Service.ChunkInfo Json)) (texts : list string)
    (data : list (Embedding Float)) :
  unsupported file = false →
  collected env file w = Return (ft, cd, texts) →
  embeddings_create env Service.MODEL texts = Return data →
  (length data < length texts →
     (Service.process_pdf_document env file w).1
       = inl {| status_code := 500;
                detail := "Error processing PDF: list index out of range" |})
  ∧ (length texts ≤ length data →
       ∃ resp,
         (Service.process_pdf_document env file w).1 = inr resp
         ∧ length (Service.chunks resp) = length texts
         ∧ Service.embedding <$> Service.chunks resp
           = data_embedding <$> take (length texts) data).
Proof.
  intros Hun Hcol Hdata. unfold collected, mbind, mret, Exc_bind, Exc_ret in Hcol.
  destruct (converted env file w) as [|doc] eqn:Hdoc; [done|].
  destruct (export_to_text env doc) as [|ft'] eqn:Hft; [done|].
  destruct (Service.chunk_data_loop env (chunker_chunk env doc) 0 [] [])
    as [|[cd' texts']] eqn:Hcd; [done|].
  injection Hcol as -> -> ->.
  destruct (process_pdf_document_run env file w doc ft cd texts Hun Hdoc Hft Hcd)
    as (path & content & _ & _ & ->).
  rewrite Hdata, chunks_loop_all. simpl.
  apply chunk_data_loop_inv in Hcd as (infos & -> & -> & _). simpl.
  rewrite length_fmap. split; intros Hlen.
  - rewrite decide_False by lia. done.
  - rewrite decide_True by lia. eexists. split; [done|]. simpl.
    rewrite length_zip_with. split; [lia|].
    clear -Hlen. revert data Hlen.
    induction infos as [|info infos IH]; intros [|d data] Hlen;
      simpl in *; try done; try lia.
    f_equal. apply IH. lia.
Qed.

Lemma embedding_count_mismatch_witness :
  unsupported Demo.pdf = false
  ∧ collected (Demo.env Demo.two_paragraphs (Return ()) Demo.only_one)
      Demo.pdf Demo.w0
    = Return ("Introduction", Demo.infos, [Demo.context1; Demo.context2])
  ∧ Demo.only_one [Demo.context1; Demo.context2]
    = Return [{| data_embedding := [0; 7] |}]
  ∧ (Service.process_pdf_document
       (Demo.env Demo.two_paragraphs (Return ()) Demo.only_one)
       Demo.pdf Demo.w0).1
    = inl {| status_code := 500;
             detail := "Error processing PDF: list index out of range" |}.
Proof.
  do 3 (split; [by vm_compute|]).
  refine (proj1 (embedding_count_mismatch
    (Demo.env Demo.two_paragraphs (Return ()) Demo.only_one) Demo.pdf Demo.w0
    "Introduction" Demo.infos [Demo.context1; Demo.context2]
    [{| data_embedding := [0; 7] |}] _ _ _) _);
    [by vm_compute.. | simpl; lia].
Defined.

(** C1 does not hold as stated: the client answers the two submitted
    texts with three vectors, and [process_pdf_document] succeeds with
    the first two attached. *)
Lemma surplus_vector_accepted :
  collected (Demo.env Demo.two_paragraphs (Return ()) Demo.one_more)
      Demo.pdf Demo.w0
    = Return ("Introduction", Demo.infos, [Demo.context1; Demo.context2])
  ∧ Demo.one_more [Demo.context1; Demo.context2]
    = Return [{| data_embedding := [0; 7] |}; {| data_embedding := [1; 7] |};
              {| data_embedding := [2; 7] |}]
  ∧ (Service.process_pdf_document
       (Demo.env Demo.two_paragraphs (Return ()) Demo.one_more)
       Demo.pdf Demo.w0).1
    = inr Demo.processed.
Proof. repeat split; by vm_compute. Qed.

(** ** Claims about both handlers *)

(** C7.  An upload whose filename is missing, empty or does not end
    with [.pdf] is answered with HTTP 400 and the detail
    ["Only PDF files are supported"], and the world is left as it was:
    no file is created and no call is made. *)
Theorem unsupported_rejected_first {Document Json Float : Type}
    (env : Env Document Json Float) (file : UploadFile) (w : World) :
  unsupported file = true →
  Service.process_pdf_document env file w
    = (inl {| status_code := 400; detail := "Only PDF files are supported" |}, w)
  ∧ Chunks.extract_pdf_chunks env file w
    = (inl {| status_code := 400; detail := "Only PDF files are supported" |}, w).
Proof.
  intros Hun. unfold Service.process_pdf_document, Chunks.extract_pdf_chunks.
  by rewrite Hun.
Qed.

Lemma unsupported_rejected_first_witness :
  unsupported Demo.txt = true
  ∧ Service.process_pdf_document Demo.healthy Demo.txt Demo.w0
    = (inl {| status_code := 400; detail := "Only PDF files are supported" |},
       Demo.w0)
  ∧ Chunks.extract_pdf_chunks Demo.healthy Demo.txt Demo.w0
    = (inl {| status_code := 400; detail := "Only PDF files are supported" |},
       Demo.w0).
Proof.
  split; [by vm_compute|].
  apply (unsupported_rejected_first Demo.healthy Demo.txt Demo.w0).
  by vm_compute.
Defined.

(** X1.  The uploads the check of both handlers lets through are
    exactly those whose filename ends with [.pdf], in lower case. *)
Lemma unsupported_spec (file : UploadFile) :
  unsupported file = false ↔ ∃ before, filename file = Some (before +:+ ".pdf").
Proof.
  unfold unsupported, truthy. destruct (filename file) as [f|]; simpl.
  - rewrite orb_false_iff, !negb_false_iff, endswith_spec. split.
    + intros [_ [before ->]]. by exists before.
    + intros [before [= ->]]. split; [|by exists before].
      by rewrite staged_name_truthy.
  - split; [done | by intros [? ?]].
Qed.

(** The records of a successful answer of [extract_pdf_chunks],
    position by position. *)
Lemma extract_pdf_chunks_records {Document Json Float : Type}
    (env : Env Document Json Float) (file : UploadFile) (w : World)
    (resp : Chunks.ChunksResponse Json) :
  (Chunks.extract_pdf_chunks env file w).1 = inr resp →
  ∃ doc,
    converted env file w = Return doc
    ∧ length (Chunks.chunks resp) = length (yielded (chunker_chunk env doc))
    ∧ ∀ i c, yielded (chunker_chunk env doc) !! i = Some c →
        ∃ r, Chunks.chunks resp !! i = Some r
          ∧ describes env c (Chunks.text r) (Chunks.contextualized_text r)
              (Chunks.meta r).
Proof.
  destruct (Chunks.extract_pdf_chunks env file w) as [res w'] eqn:Hrun.
  simpl. intros ->.
  apply extract_pdf_chunks_inr in Hrun as (path & doc & _ & _ & Hdoc & Hloop & _).
  apply extract_chunks_loop_inv in Hloop as (rs & -> & Hlen & Hall).
  by exists doc.
Qed.

(** C10.  When the metadata object of a chunk has no
    [export_json_dict] once the chunk is contextualized, the record
    either handler returns for that chunk has the empty dictionary as
    its [meta]. *)
Theorem plain_meta_is_empty_dict {Document Json Float : Type}
    (env : Env Document Json Float) (file : UploadFile) (w : World)
    (doc : Document) (i : nat) (c c' : Chunk Json) (s : string) :
  converted env file w = Return doc →
  yielded (chunker_chunk env doc) !! i = Some c →
  chunker_contextualize env c = Return (s, c') →
  has_export_json_dict (chunk_meta c') = false →
  export_meta (chunk_meta c') = Return ∅
  ∧ (∀ resp, (Service.process_pdf_document env file w).1 = inr resp →
       Service.meta <$> Service.chunks resp !! i = Some ∅)
  ∧ (∀ resp, (Chunks.extract_pdf_chunks env file w).1 = inr resp →
       Chunks.meta <$> Chunks.chunks resp !! i = Some ∅).
Proof.
  intros Hdoc Hc Hctx Hplain.
  assert (export_meta (chunk_meta c') = Return ∅) as Hempty.
  { by destruct (chunk_meta c'). }
  assert (∀ text s' m, describes env c text s' m → m = ∅) as Hmeta.
  { intros text s' m (c'' & Hctx' & _ & Hm). rewrite Hctx in Hctx'.
    injection Hctx' as _ <-. rewrite Hempty in Hm. by injection Hm as <-. }
  split; [done|]. split; intros resp Hrun.
  - apply process_pdf_document_records in Hrun as (doc' & data & Hdoc' & _ & _ & Hall).
    rewrite Hdoc in Hdoc'. injection Hdoc' as <-.
    destruct (Hall i c Hc) as (r & d & -> & _ & Hdesc & _). simpl.
    f_equal. by eapply Hmeta.
  - apply extract_pdf_chunks_records in Hrun as (doc' & Hdoc' & _ & Hall).
    rewrite Hdoc in Hdoc'. injection Hdoc' as <-.
    destruct (Hall i c Hc) as (r & -> & Hdesc). simpl.
    f_equal. by eapply Hmeta.
Qed.

Lemma plain_meta_is_empty_dict_witness :
  converted Demo.healthy Demo.pdf Demo.w0 = Return ()
  ∧ yielded (chunker_chunk Demo.healthy ()) !! 1 = Some Demo.P2
  ∧ chunker_contextualize Demo.healthy Demo.P2 = Return (Demo.context2, Demo.P2)
  ∧ has_export_json_dict (chunk_meta Demo.P2) = false
  ∧ (Service.process_pdf_document Demo.healthy Demo.pdf Demo.w0).1
    = inr Demo.processed
  ∧ (Chunks.extract_pdf_chunks Demo.healthy Demo.pdf Demo.w0).1
    = inr Demo.extracted
  ∧ export_meta (chunk_meta Demo.P2) = Return ∅
  ∧ Service.meta <$> Service.chunks Demo.processed !! 1 = Some ∅
  ∧ Chunks.meta <$> Chunks.chunks Demo.extracted !! 1 = Some ∅.
Proof.
  do 6 (split; [by vm_compute|]).
  destruct (plain_meta_is_empty_dict Demo.healthy Demo.pdf Demo.w0 () 1
              Demo.P2 Demo.P2 Demo.context2) as (Hexport & Hservice & Hchunks);
    [by vm_compute..|].
  split; [exact Hexport|].
  split; [apply Hservice | apply Hchunks]; by vm_compute.
Defined.

(** ** The contextualizer in the pipeline *)

(** The spec's example: under the heading "Introduction" the paragraph
    "Hello world." is rendered as the heading, a line feed and the
    paragraph. *)
Example contextualize_introduction :
  HierarchicalChunker.contextualize Demo.P1
    = Return ("Introduction" +:+ LF +:+ "Hello world.", Demo.P1).
Proof. by vm_compute. Qed.

(** A chunk without headings is rendered as its text alone. *)
Lemma contextualize_no_headings {Json} (c : Chunk Json) :
  chunk_headings c = [] →
  HierarchicalChunker.contextualize c = Return (chunk_text c, c).
Proof. unfold HierarchicalChunker.contextualize. by intros ->. Qed.

(** What [describes] says of a chunk under this contextualizer. *)
Lemma describes_contextualize {Document Json Float : Type}
    (env : Env Document Json Float) (c : Chunk Json) (text s : string)
    (m : @dict Json) :
  chunker_contextualize env = HierarchicalChunker.contextualize →
  describes env c text s m →
  text = chunk_text c
  ∧ s = join LF (map heading_text (chunk_headings c) ++ [chunk_text c]).
Proof.
  intros Henv (c' & Hctx & -> & _). rewrite Henv in Hctx.
  unfold HierarchicalChunker.contextualize in Hctx. by injection Hctx as <- <-.
Qed.

(** C3.  With the contextualizer of the spec, the text of every chunk
    record either handler returns occurs in the record's contextualized
    text. *)
Theorem text_within_contextualized_text {Document Json Float : Type}
    (env : Env Document Json Float) (file : UploadFile) (w : World) :
  chunker_contextualize env = HierarchicalChunker.contextualize →
  (∀ resp i r,
     (Service.process_pdf_document env file w).1 = inr resp →
     Service.chunks resp !! i = Some r →
     Substring (Service.text r) (Service.contextualized_text r))
  ∧ (∀ resp i r,
       (Chunks.extract_pdf_chunks env file w).1 = inr resp →
       Chunks.chunks resp !! i = Some r →
       Substring (Chunks.text r) (Chunks.contextualized_text r)).
Proof.
  intros Henv. split; intros resp i r Hrun Hr.
  - apply process_pdf_document_records in Hrun as (doc & data & _ & _ & Hlen & Hall).
    destruct (lookup_lt_is_Some_2 (yielded (chunker_chunk env doc)) i) as [c Hc].
    { apply lookup_lt_Some in Hr. lia. }
    destruct (Hall i c Hc) as (r' & d & Hr' & _ & Hdesc & _).
    rewrite Hr in Hr'. injection Hr' as <-.
    destruct (describes_contextualize env c _ _ _ Henv Hdesc) as [-> ->].
    destruct (join_last LF (map heading_text (chunk_headings c)) (chunk_text c))
      as [before ->].
    apply Substring_suffix.
  - apply extract_pdf_chunks_records in Hrun as (doc & _ & Hlen & Hall).
    destruct (lookup_lt_is_Some_2 (yielded (chunker_chunk env doc)) i) as [c Hc].
    { apply lookup_lt_Some in Hr. lia. }
    destruct (Hall i c Hc) as (r' & Hr' & Hdesc).
    rewrite Hr in Hr'. injection Hr' as <-.
    destruct (describes_contextualize env c _ _ _ Henv Hdesc) as [-> ->].
    destruct (join_last LF (map heading_text (chunk_headings c)) (chunk_text c))
      as [before ->].
    apply Substring_suffix.
Qed.

Lemma text_within_contextualized_text_witness :
  chunker_contextualize Demo.healthy = HierarchicalChunker.contextualize
  ∧ (Service.process_pdf_document Demo.healthy Demo.pdf Demo.w0).1
    = inr Demo.processed
  ∧ (Chunks.extract_pdf_chunks Demo.healthy Demo.pdf Demo.w0).1
    = inr Demo.extracted
  ∧ Substring "Hello world." Demo.context1
  ∧ Substring "Second para." Demo.context2.
Proof.
  do 3 (split; [by vm_compute|]).
  destruct (text_within_contextualized_text Demo.healthy Demo.pdf Demo.w0 eq_refl)
    as [Hservice Hchunks].
  split.
  - apply (Hservice Demo.processed 0
             {| Service.text := "Hello world.";
                Service.contextualized_text := Demo.context1;
                Service.embedding := [0; 7];
                Service.index := 0;
                Service.meta := {["headings" := "Introduction"]} |});
      by vm_compute.
  - apply (Hchunks Demo.extracted 1
             {| Chunks.text := "Second para.";
                Chunks.contextualized_text := Demo.context2;
                Chunks.meta := ∅ |});
      by vm_compute.
Defined.

(** ** Documents without chunks *)

(** C4, as the code has it.  When the upload is staged and converted
    and the chunker yields nothing, [extract_pdf_chunks] succeeds with
    an empty chunk list and [total_chunks] 0.  [process_pdf_document]
    still submits the empty batch to the embeddings client: it succeeds
    with an empty chunk list and [total_chunks] 0 when that call
    returns, and answers HTTP 500 with the client's message when the
    call raises. *)
Theorem empty_document {Document Json Float : Type}
    (env : Env Document Json Float) (file : UploadFile) (w : World)
    (doc : Document) :
  unsupported file = false →
  converted env file w = Return doc →
  chunker_chunk env doc = IterDone →
  (Chunks.extract_pdf_chunks env file w).1
    = inr {| Chunks.chunks := []; Chunks.total_chunks := 0 |}
  ∧ ∀ ft, export_to_text env doc = Return ft →
      EvEmbeddingsCreate Service.MODEL [] ∈ trace (Service.process_pdf_document env file w).2
      ∧ (Service.process_pdf_document env file w).1
        = match embeddings_create env Service.MODEL [] with
          | Return _ =>
              inr {| Service.chunks := [];
                     Service.total_chunks := 0;
                     Service.full_text := ft |}
          | Raise e =>
              inl {| status_code := 500; detail := "Error processing PDF: " +:+ e |}
          end.
Proof.
  intros Hun Hdoc Hempty. split.
  - destruct (extract_pdf_chunks_run env file w doc Hun Hdoc)
      as (path & content & _ & _ & ->).
    by rewrite Hempty.
  - intros ft Hft.
    destruct (process_pdf_document_run env file w doc ft [] [] Hun Hdoc Hft)
      as (path & content & _ & _ & ->).
    { by rewrite Hempty. }
    split.
    + simpl. rewrite !elem_of_app, !elem_of_cons. tauto.
    + by destruct (embeddings_create env Service.MODEL []).
Qed.

Lemma empty_document_witness :
  unsupported Demo.pdf = false
  ∧ converted (Demo.env IterDone (Return ()) Demo.one_each) Demo.pdf Demo.w0
    = Return ()
  ∧ chunker_chunk (Demo.env IterDone (Return ()) Demo.one_each) () = IterDone
  ∧ (Chunks.extract_pdf_chunks (Demo.env IterDone (Return ()) Demo.one_each)
       Demo.pdf Demo.w0).1
    = inr {| Chunks.chunks := []; Chunks.total_chunks := 0 |}
  ∧ (Service.process_pdf_document (Demo.env IterDone (Return ()) Demo.one_each)
       Demo.pdf Demo.w0).1
    = inr {| Service.chunks := [];
             Service.total_chunks := 0;
             Service.full_text := "Introduction" |}.
Proof.
  do 3 (split; [by vm_compute|]).
  destruct (empty_document (Demo.env IterDone (Return ()) Demo.one_each)
              Demo.pdf Demo.w0 ()) as [Hchunks Hservice]; [by vm_compute..|].
  split; [exact Hchunks|].
  exact (proj2 (Hservice "Introduction" eq_refl)).
Defined.

(** C4 does not hold as stated: the upload converts, the chunker yields
    nothing, the embeddings client refuses the empty batch, and
    [process_pdf_document] answers HTTP 500. *)
Lemma empty_batch_refused :
  converted (Demo.env IterDone (Return ()) Demo.refuse_empty) Demo.pdf Demo.w0
    = Return ()
  ∧ chunker_chunk (Demo.env IterDone (Return ()) Demo.refuse_empty) () = IterDone
  ∧ Service.process_pdf_document (Demo.env IterDone (Return ()) Demo.refuse_empty)
      Demo.pdf Demo.w0
    = (inl {| status_code := 500;
              detail := "Error processing PDF: Error code: 400 - '$.input' is invalid" |},
       {| fs := ∅;
          trace := [EvNamedTemporaryFile Demo.tmp; EvConvert Demo.tmp; EvChunk;
                    EvEmbeddingsCreate Service.MODEL []; EvUnlink Demo.tmp] |}).
Proof. repeat split; by vm_compute. Qed.

(** ** The staged copy *)

Section StagedCopy.
Context {Document Json Float : Type}.
Variable env : Env Document Json Float.

(** Closes a branch in which the [try] block was left after
    [tmp_file_path] was assigned. *)
Ltac unlinked :=
  simpl; rewrite ?staged_name_truthy; simpl; apply lookup_delete_eq.

(** X2.  Once the upload is written to the temporary file, the file is
    gone when either handler returns, however the later steps end. *)
Lemma staged_copy_unlinked (file : UploadFile) (w : World) (path : string) :
  unsupported file = false →
  staged_path env w = Return path →
  staging env file w = Return () →
  fs (Service.process_pdf_document env file w).2 !! path = None
  ∧ fs (Chunks.extract_pdf_chunks env file w).2 !! path = None.
Proof.
  intros Hun. unfold Service.process_pdf_document, Chunks.extract_pdf_chunks.
  rewrite Hun. unfold staging, staged_path, Service.try_body, Chunks.try_body. run.
  unfold Exc_bind, Exc_ret.
  destruct (mkstemp env (fs w)) as [|stem0]; [done|]. simpl. intros [= <-].
  destruct (read file) as [|content]; [done|]. simpl. intros Hwr. rewrite Hwr. simpl.
  rewrite lookup_insert_eq.
  destruct (converter_convert env _ content) as [|doc]; [by split; unlinked|]. simpl.
  split.
  - destruct (export_to_text env doc); [by unlinked|]. simpl.
    destruct (Service.chunk_data_loop env _ 0 [] []) as [|[cd texts]];
      [by unlinked|]. simpl.
    destruct (embeddings_create env _ texts) as [|data]; [by unlinked|]. simpl.
    destruct (Service.chunks_loop data cd 0 []); by unlinked.
  - destruct (Chunks.chunks_loop env _ []); by unlinked.
Qed.

(** When reading the upload or writing it to the temporary file
    raises, [tmp_file_path] is still [None] in the [except] clause:
    both handlers answer HTTP 500 and leave the file on disk. *)
Lemma staging_failure_keeps_file (file : UploadFile) (w : World)
    (path e : string) :
  unsupported file = false →
  staged_path env w = Return path →
  staging env file w = Raise e →
  let answer := {| status_code := 500; detail := "Error processing PDF: " +:+ e |} in
  let left := {| fs := <[path := []]> (fs w);
                 trace := trace w ++ [EvNamedTemporaryFile path] |} in
  Service.process_pdf_document env file w = (inl answer, left)
  ∧ Chunks.extract_pdf_chunks env file w = (inl answer, left).
Proof.
  intros Hun. unfold Service.process_pdf_document, Chunks.extract_pdf_chunks.
  rewrite Hun. unfold staging, staged_path, Service.try_body, Chunks.try_body. run.
  unfold Exc_bind, Exc_ret.
  destruct (mkstemp env (fs w)) as [|stem0]; [done|]. simpl. intros [= <-].
  destruct (read file) as [|content]; simpl.
  - by intros [= ->].
  - intros Hwr. rewrite Hwr. simpl. done.
Qed.
End StagedCopy.

(** C5 fails on the code.  Reading the upload raises after
    [NamedTemporaryFile] created the file: [tmp_file_path] is still
    [None] in the [except] clause, both handlers answer HTTP 500
    without unlinking, and the file is still there when they return. *)
Theorem staged_copy_left_behind :
  let answer :=
    {| status_code := 500;
       detail := "Error processing PDF: I/O operation on closed file." |} in
  let left := {| fs := {[Demo.tmp := []]}; trace := [EvNamedTemporaryFile Demo.tmp] |} in
  read Cases.unreadable = Raise "I/O operation on closed file."
  ∧ Service.process_pdf_document Demo.healthy Cases.unreadable Demo.w0
    = (inl answer, left)
  ∧ Chunks.extract_pdf_chunks Demo.healthy Cases.unreadable Demo.w0
    = (inl answer, left)
  ∧ fs left !! Demo.tmp = Some [].
Proof.
  intros answer left. split; [done|].
  destruct (staging_failure_keeps_file Demo.healthy Cases.unreadable Demo.w0 Demo.tmp
              "I/O operation on closed file.") as [Hservice Hchunks];
    [by vm_compute..|].
  split; [exact Hservice|]. split; [exact Hchunks|]. apply lookup_insert_eq.
Qed.

(** ** The batch scripts *)

Lemma attempted_app (l1 l2 : list Line) :
  attempted (l1 ++ l2) = attempted l1 ++ attempted l2.
Proof. apply omap_app. Qed.

(** A line the stream takes is appended to the output. *)
Lemma print_taken (refuses : Line → option string) (l : Line) (σ : Script) :
  refuses l = None →
  print refuses l σ
    = (Return (), {| stdout := stdout σ ++ [l]; written := written σ |}).
Proof. intros Htaken. unfold print. by rewrite Htaken. Qed.

Section MarkdownRuns.
Variable env : MarkdownScript.Env.
Hypothesis Hprint : ∀ l, MarkdownScript.stdout_refuses env l = None.

(** One pass of the loop prints the two lines of the file's report and
    leaves on the disk what the write left. *)
Lemma markdown_convert_file (σ : Script) (name : string) :
  MarkdownScript.convert_file env name σ =
    (Return (),
     {| stdout := stdout σ ++ MarkdownOutcome.report env name;
        written := written σ ++ option_list (MarkdownOutcome.leaves env name) |}).
Proof.
  unfold MarkdownScript.convert_file, except_print, MarkdownScript.try_body,
    MarkdownScript.write_text, MarkdownOutcome.report, MarkdownOutcome.leaves,
    MarkdownOutcome.outcome, lift.
  unfold mbind, mret, StateExc_bind, StateExc_ret, Exc_bind.
  rewrite print_taken by done.
  destruct (MarkdownScript.convert_markdown env name) as [e|md]; simpl.
  - rewrite print_taken by done. simpl.
    by rewrite <- (assoc_L (++)), app_nil_r.
  - destruct (MarkdownScript.write_text_outcome env _ md) as [|e|e kept]; simpl;
      rewrite print_taken by done; simpl;
      by rewrite <- (assoc_L (++)), ?app_nil_r.
Qed.

(** The loop handles the files one after the other, each on its own. *)
Lemma markdown_loop (pdf_files : list string) (σ : Script) :
  for_each (MarkdownScript.convert_file env) pdf_files σ =
    (Return (),
     {| stdout := stdout σ ++ concat (MarkdownOutcome.report env <$> pdf_files);
        written := written σ ++ omap (MarkdownOutcome.leaves env) pdf_files |}).
Proof.
  revert σ. induction pdf_files as [|name rest IH]; intros σ.
  - simpl. rewrite !app_nil_r. by destruct σ.
  - cbn [for_each]. unfold mbind, StateExc_bind.
    rewrite markdown_convert_file, IH. cbn [stdout written fmap list_fmap concat].
    rewrite <- !(assoc_L (++)). do 3 f_equal.
    cbn [omap list_omap]. by destruct (MarkdownOutcome.leaves env name).
Qed.

Lemma attempted_reports (pdf_files : list string) :
  attempted (concat (MarkdownOutcome.report env <$> pdf_files)) = pdf_files.
Proof.
  induction pdf_files as [|name rest IH]; [done|].
  change (concat (MarkdownOutcome.report env <$> name :: rest))
    with (MarkdownOutcome.report env name
          ++ concat (MarkdownOutcome.report env <$> rest)).
  rewrite attempted_app, IH. unfold MarkdownOutcome.report.
  by destruct (MarkdownOutcome.outcome env name).
Qed.

Lemma markdown_main (pdf_files : list string) (σ : Script) :
  MarkdownScript.main env pdf_files σ =
    (Return (),
     {| stdout := stdout σ ++
          match pdf_files with
          | [] => [NoFiles]
          | _ => Found (length pdf_files)
                 :: concat (MarkdownOutcome.report env <$> pdf_files)
                 ++ [Complete "md"]
          end;
        written := written σ ++ omap (MarkdownOutcome.leaves env) pdf_files |}).
Proof.
  unfold MarkdownScript.main. destruct pdf_files as [|name rest].
  - rewrite print_taken by done. simpl. by rewrite app_nil_r.
  - unfold mbind, StateExc_bind. rewrite print_taken by done.
    rewrite markdown_loop, print_taken by done. cbn [stdout written].
    by rewrite <- !(assoc_L (++)).
Qed.
End MarkdownRuns.

(** A file written in full is what the file leaves on the disk. *)
Lemma leaves_output (env : MarkdownScript.Env) (name md : string) :
  MarkdownOutcome.outcome env name = Return md →
  MarkdownOutcome.leaves env name = Some (MarkdownScript.md_file_path name, md).
Proof.
  unfold MarkdownOutcome.outcome, MarkdownOutcome.leaves, mbind, Exc_bind.
  destruct (MarkdownScript.convert_markdown env name) as [|md']; [done|].
  destruct (MarkdownScript.write_text_outcome env _ md'); [|done..].
  by intros [= ->].
Qed.

Section ChunkRuns.
Context {Document Json : Type}.
Variable env : ChunkScript.Env Document Json.
Variable chunker : ChunkScript.HybridChunker Document Json.

(** The inner loop prints chunk lines only, with headers that count up
    from the number it starts with, and writes nothing, whatever the
    stream refuses. *)
Lemma chunk_loop_lines (it : ChunkIter Json) (i : nat) (σ : Script) :
  ∃ lines,
    (ChunkScript.chunk_loop env chunker it i σ).2
      = {| stdout := stdout σ ++ lines; written := written σ |}
    ∧ attempted lines = []
    ∧ headers lines = seq i (length (headers lines))
    ∧ length (headers lines) ≤ length (yielded it).
Proof.
  revert i σ. induction it as [|c rest IH|e]; intros i σ.
  - exists []. rewrite app_nil_r. destruct σ. repeat split. simpl. lia.
  - cbn [ChunkScript.chunk_loop yielded length].
    unfold mbind, StateExc_bind, print, lift.
    destruct (ChunkScript.stdout_refuses env (ChunkHeader i)).
    { exists []. rewrite app_nil_r. destruct σ. repeat split. simpl. lia. }
    cbn [stdout written].
    destruct (ChunkScript.stdout_refuses env (ChunkText (chunk_text c))).
    { exists [ChunkHeader i]. repeat split. simpl. lia. }
    cbn [stdout written].
    destruct (ChunkScript.hybrid_contextualize chunker c) as [e|[text c']].
    { exists [ChunkHeader i; ChunkText (chunk_text c)].
      rewrite <- (assoc_L (++)). repeat split. simpl. lia. }
    destruct (ChunkScript.stdout_refuses env (ChunkContext text)).
    { exists [ChunkHeader i; ChunkText (chunk_text c)].
      rewrite <- (assoc_L (++)). repeat split. simpl. lia. }
    cbn [stdout written].
    destruct (ChunkScript.stdout_refuses env Blank).
    { exists [ChunkHeader i; ChunkText (chunk_text c); ChunkContext text].
      rewrite <- !(assoc_L (++)). repeat split. simpl. lia. }
    cbn [stdout written].
    destruct (IH (S i)
      {| stdout := (((stdout σ ++ [ChunkHeader i]) ++ [ChunkText (chunk_text c)])
                    ++ [ChunkContext text]) ++ [Blank];
         written := written σ |}) as (lines & -> & Hnone & Hseq & Hlen).
    exists ([ChunkHeader i; ChunkText (chunk_text c); ChunkContext text; Blank]
            ++ lines).
    cbn [stdout written]. rewrite <- !(assoc_L (++)). split; [done|].
    split; [by rewrite attempted_app, Hnone|].
    change (headers ([ChunkHeader i; ChunkText (chunk_text c); ChunkContext text; Blank]
                     ++ lines))
      with (i :: headers lines).
    cbn [length seq]. split; [by rewrite <- Hseq | lia].
  - exists []. rewrite app_nil_r. destruct σ. repeat split. simpl. lia.
Qed.

Hypothesis Hprint : ∀ l, ChunkScript.stdout_refuses env l = None.

(** One pass of the outer loop announces the file, prints chunk lines
    and at most one error line, and writes nothing; when the conversion
    raises, the error line carries its message. *)
Lemma chunk_convert_file (σ : Script) (name : string) :
  ∃ lines,
    ChunkScript.convert_file env chunker name σ
      = (Return (),
         {| stdout := stdout σ ++ Converting name :: lines; written := written σ |})
    ∧ attempted lines = []
    ∧ ∀ e, ChunkScript.convert_document env name = Raise e →
        ErrorConverting name e ∈ lines.
Proof.
  unfold ChunkScript.convert_file, except_print, ChunkScript.try_body, lift.
  unfold mbind, StateExc_bind. rewrite print_taken by done.
  destruct (ChunkScript.convert_document env name) as [e|doc].
  - rewrite print_taken by done. exists [ErrorConverting name e].
    cbn [stdout written]. rewrite <- (assoc_L (++)).
    split; [done|]. split; [done|]. intros e' [= ->]. apply list_elem_of_here.
  - destruct (chunk_loop_lines (ChunkScript.hybrid_chunk chunker doc) 0
        {| stdout := stdout σ ++ [Converting name]; written := written σ |})
      as (lines & Hrun & Hnone & _).
    destruct (ChunkScript.chunk_loop env chunker _ 0 _) as [[e|[]] σ'];
      cbn [snd stdout written] in Hrun; subst σ'.
    + rewrite print_taken by done. exists (lines ++ [ErrorConverting name e]).
      cbn [stdout written]. rewrite <- !(assoc_L (++)).
      split; [done|]. split; [|done].
      by rewrite attempted_app, Hnone.
    + exists lines. rewrite <- (assoc_L (++)). by repeat split.
Qed.

(** The outer loop announces every file in turn, reports every
    conversion that raised and writes nothing. *)
Lemma chunk_loop_outer (pdf_files : list string) (σ : Script) :
  ∃ σ',
    for_each (ChunkScript.convert_file env chunker) pdf_files σ = (Return (), σ')
    ∧ attempted (stdout σ') = attempted (stdout σ) ++ pdf_files
    ∧ written σ' = written σ
    ∧ (∀ l, l ∈ stdout σ → l ∈ stdout σ')
    ∧ ∀ name e, name ∈ pdf_files →
        ChunkScript.convert_document env name = Raise e →
        ErrorConverting name e ∈ stdout σ'.
Proof.
  revert σ. induction pdf_files as [|name rest IH]; intros σ.
  - exists σ. rewrite app_nil_r. do 3 (split; [done|]). split; [auto|].
    intros name e Hin. by apply elem_of_nil in Hin.
  - cbn [for_each]. unfold mbind, StateExc_bind.
    destruct (chunk_convert_file σ name) as (lines & -> & Hnone & Herr).
    destruct (IH {| stdout := stdout σ ++ Converting name :: lines;
                    written := written σ |})
      as (σ' & -> & Hatt & Hwr & Hmono & Hrep).
    cbn [stdout written] in *. exists σ'. split; [done|].
    split; [|split; [done|split]].
    + rewrite Hatt, attempted_app.
      change (attempted (Converting name :: lines)) with (name :: attempted lines).
      rewrite Hnone. by rewrite <- (assoc_L (++)).
    + intros l Hl. apply Hmono. rewrite elem_of_app. by left.
    + intros name' e [->|Hin]%elem_of_cons Hraise.
      * apply Hmono. rewrite elem_of_app, elem_of_cons. right. right. by apply Herr.
      * by apply Hrep.
Qed.
End ChunkRuns.

Lemma report_in_reports (env : MarkdownScript.Env) (pdf_files : list string)
    (name : string) (l : Line) :
  name ∈ pdf_files →
  l ∈ MarkdownOutcome.report env name →
  l ∈ concat (MarkdownOutcome.report env <$> pdf_files).
Proof.
  intros Hname Hl. induction pdf_files as [|name' rest IH].
  - by apply elem_of_nil in Hname.
  - change (concat (MarkdownOutcome.report env <$> name' :: rest))
      with (MarkdownOutcome.report env name'
            ++ concat (MarkdownOutcome.report env <$> rest)).
    apply elem_of_app. apply elem_of_cons in Hname as [->|Hname]; auto.
Qed.

(** C6, as the code has it.  As long as the standard output takes every
    line (a [print] that raises in the [except] clause or outside the
    [try] ends the run) and, for the chunk printer, [HybridChunker()]
    returns, both scripts run to their end; every file the glob found
    is announced, in order, whatever became of the files before it, and
    every conversion that raised is reported with its file and message.
    In the markdown script each file that converts and is written adds
    exactly one output file with its text; a write that fails after the
    file was opened leaves what it had written, and nothing else is
    written. *)
Theorem batch_failure_does_not_abort {Document Json : Type}
    (menv : MarkdownScript.Env) (cenv : ChunkScript.Env Document Json)
    (chunker : ChunkScript.HybridChunker Document Json)
    (pdf_files : list string) (σ : Script) :
  (∀ l, MarkdownScript.stdout_refuses menv l = None) →
  (∀ l, ChunkScript.stdout_refuses cenv l = None) →
  ChunkScript.new_HybridChunker cenv = Return chunker →
  (let run := MarkdownScript.main menv pdf_files σ in
   run.1 = Return ()
   ∧ attempted (stdout run.2) = attempted (stdout σ) ++ pdf_files
   ∧ written run.2 = written σ ++ omap (MarkdownOutcome.leaves menv) pdf_files
   ∧ (∀ name md, name ∈ pdf_files →
        MarkdownOutcome.outcome menv name = Return md →
        (MarkdownScript.md_file_path name, md) ∈ written run.2)
   ∧ ∀ name e, name ∈ pdf_files →
       MarkdownOutcome.outcome menv name = Raise e →
       ErrorConverting name e ∈ stdout run.2)
  ∧ (let run := ChunkScript.main cenv pdf_files σ in
     run.1 = Return ()
     ∧ attempted (stdout run.2) = attempted (stdout σ) ++ pdf_files
     ∧ ∀ name e, name ∈ pdf_files →
         ChunkScript.convert_document cenv name = Raise e →
         ErrorConverting name e ∈ stdout run.2).
Proof.
  intros Hmd Hchunk Hnew. split; cbv zeta.
  - rewrite markdown_main by done. cbn [fst snd stdout written].
    split; [done|]. split; [|split; [done|split]].
    + rewrite attempted_app. f_equal. destruct pdf_files as [|name rest]; [done|].
      change (attempted (Found (length (name :: rest))
                :: concat (MarkdownOutcome.report menv <$> name :: rest)
                ++ [Complete "md"]))
        with (attempted (concat (MarkdownOutcome.report menv <$> name :: rest)
                ++ [Complete "md"])).
      by rewrite attempted_app, attempted_reports, app_nil_r.
    + intros name md Hname Hout. apply elem_of_app. right.
      apply list_elem_of_omap. exists name. split; [done|]. by apply leaves_output.
    + intros name e Hname Hout. apply elem_of_app. right.
      destruct pdf_files as [|name' rest]; [by apply elem_of_nil in Hname|].
      apply elem_of_cons. right. apply elem_of_app. left.
      apply (report_in_reports menv _ name); [done|].
      unfold MarkdownOutcome.report. rewrite Hout.
      apply elem_of_cons. right. apply list_elem_of_here.
  - unfold ChunkScript.main. destruct pdf_files as [|name rest].
    + rewrite print_taken by done. cbn [fst snd stdout].
      split; [done|]. split; [|intros ? ? Hin; by apply elem_of_nil in Hin].
      rewrite attempted_app. by change (attempted [NoFiles]) with (@nil string).
    + remember (name :: rest) as files eqn:Hfiles.
      unfold mbind, StateExc_bind, lift. rewrite print_taken by done.
      rewrite Hnew.
      destruct (chunk_loop_outer cenv chunker Hchunk files
                  {| stdout := stdout σ ++ [Found (length files)];
                     written := written σ |})
        as (σ' & -> & Hatt & _ & _ & Hrep).
      rewrite print_taken by done. cbn [fst snd stdout written] in *.
      split; [done|]. split.
      * rewrite attempted_app, Hatt, attempted_app.
        change (attempted [Found (length files)]) with (@nil string).
        change (attempted [Complete "docling"]) with (@nil string).
        by rewrite !app_nil_r.
      * intros name' e Hin Hraise. apply elem_of_app. left. by apply Hrep.
Qed.

Lemma batch_failure_does_not_abort_witness :
  (∀ l, MarkdownScript.stdout_refuses Demo.markdown_env l = None)
  ∧ (∀ l, ChunkScript.stdout_refuses Demo.chunk_env l = None)
  ∧ ChunkScript.new_HybridChunker Demo.chunk_env = Return Demo.hybrid
  ∧ (MarkdownScript.main Demo.markdown_env ["a.pdf"; "b.pdf"; "c.pdf"] Demo.s0).1
    = Return ()
  ∧ attempted
      (stdout (MarkdownScript.main Demo.markdown_env ["a.pdf"; "b.pdf"; "c.pdf"]
                 Demo.s0).2)
    = attempted (stdout Demo.s0) ++ ["a.pdf"; "b.pdf"; "c.pdf"].
Proof.
  do 3 (split; [done|]).
  destruct (batch_failure_does_not_abort Demo.markdown_env Demo.chunk_env
              Demo.hybrid ["a.pdf"; "b.pdf"; "c.pdf"] Demo.s0)
    as [(Hend & Hattempted & _) _]; [done..|].
  split; [exact Hend | exact Hattempted].
Defined.

(** The markdown script on a directory of three files of which the
    second does not convert: the third is converted all the same. *)
Example markdown_second_file_fails :
  MarkdownScript.main Demo.markdown_env ["a.pdf"; "b.pdf"; "c.pdf"] Demo.s0 =
    (Return (),
     {| stdout := [Found 3;
                   Converting "a.pdf"; Saved "md/a.md";
                   Converting "b.pdf";
                   ErrorConverting "b.pdf" "Input document b.pdf is not valid.";
                   Converting "c.pdf"; Saved "md/c.md";
                   Complete "md"];
        written := [("md/a.md", "# a.pdf"); ("md/c.md", "# c.pdf")] |}).
Proof. by vm_compute. Qed.

(** The same directory on a standard output that cannot encode the
    marks: the saved line of the first file is refused inside the
    [try], the error line is refused in the [except] clause, and the
    run ends there with the other files never attempted. *)
Example markdown_refused_mark_ends_run :
  MarkdownScript.main Cases.markdown_ascii ["a.pdf"; "b.pdf"; "c.pdf"] Demo.s0 =
    (Raise "'ascii' codec can't encode character",
     {| stdout := [Found 3; Converting "a.pdf"];
        written := [("md/a.md", "# a.pdf")] |}).
Proof. by vm_compute. Qed.

(** A disk that fills up while the second text is written: the file is
    left empty, the failure is reported and the third file is written. *)
Example markdown_failed_write_leaves_file :
  MarkdownScript.main Cases.markdown_full ["a.pdf"; "b.pdf"; "c.pdf"] Demo.s0 =
    (Return (),
     {| stdout := [Found 3;
                   Converting "a.pdf"; Saved "md/a.md";
                   Converting "b.pdf";
                   ErrorConverting "b.pdf" "[Errno 28] No space left on device";
                   Converting "c.pdf"; Saved "md/c.md";
                   Complete "md"];
        written := [("md/a.md", "# a.pdf"); ("md/b.md", ""); ("md/c.md", "# c.pdf")] |}).
Proof. by vm_compute. Qed.

(** C6 does not hold as stated for the chunk printer: the file
    converts, its chunk is printed, and no output file is written. *)
Lemma chunk_script_writes_nothing :
  ChunkScript.convert_document Demo.chunk_env "a.pdf" = Return ()
  ∧ ChunkScript.main Demo.chunk_env ["a.pdf"] Demo.s0 =
      (Return (),
       {| stdout := [Found 1; Converting "a.pdf"; ChunkHeader 0;
                     ChunkText "Second para."; ChunkContext Demo.context2; Blank;
                     Complete "docling"];
          written := [] |}).
Proof. split; by vm_compute. Qed.

(** * Further properties of the handlers *)

Section HandlerFrames.
Context {Document Json Float : Type}.
Variable env : Env Document Json Float.

(** Closes a branch of a run by looking a foreign path up in the files
    the handler left. *)
Ltac foreign :=
  simpl; rewrite ?staged_name_truthy; simpl;
  rewrite ?lookup_delete_ne, ?lookup_insert_ne by done; done.

(** X3.  Whatever a handler answers, every file other than its own
    temporary file is on disk afterwards exactly as it was before. *)
Theorem other_files_untouched (file : UploadFile) (w : World) (q : string) :
  staged_path env w ≠ Return q →
  fs (Service.process_pdf_document env file w).2 !! q = fs w !! q
  ∧ fs (Chunks.extract_pdf_chunks env file w).2 !! q = fs w !! q.
Proof.
  unfold Service.process_pdf_document, Chunks.extract_pdf_chunks.
  destruct (unsupported file); [done|].
  unfold staged_path, Service.try_body, Chunks.try_body. run.
  unfold Exc_bind, Exc_ret.
  destruct (mkstemp env (fs w)) as [|stem0]; [done|]. simpl. intros Hq.
  assert (stem0 +:+ ".pdf" ≠ q) as Hne by congruence.
  destruct (read file) as [|content]; [by split; foreign|]. simpl.
  destruct (tmp_write env _ content); [by split; foreign|]. simpl.
  rewrite lookup_insert_eq.
  destruct (converter_convert env _ content) as [|doc]; [by split; foreign|]. simpl.
  split.
  - destruct (export_to_text env doc); [by foreign|]. simpl.
    destruct (Service.chunk_data_loop env _ 0 [] []) as [|[cd texts]];
      [by foreign|]. simpl.
    destruct (embeddings_create env _ texts) as [|data]; [by foreign|]. simpl.
    destruct (Service.chunks_loop data cd 0 []); by foreign.
  - destruct (Chunks.chunks_loop env _ []); by foreign.
Qed.
End HandlerFrames.

Section HandlerFailures.
Context {Document Json Float : Type}.
Variable env : Env Document Json Float.

(** Closes a branch of a run that was left by an exception: the answer
    is the HTTP 500 of that exception and the new events are the ones
    the goal lists. *)
Ltac aborted :=
  simpl; rewrite ?staged_name_truthy; simpl;
  split; [done|];
  first [ by exists []; rewrite app_nil_r
        | eexists; split; [by rewrite <- ?(assoc_L (++))|]; by repeat constructor ].

(** X6.  When staging the upload or converting the staged copy raises,
    both handlers answer HTTP 500 with the message of that exception,
    and neither the chunker nor the embeddings client is called. *)
Theorem conversion_failure_aborts (file : UploadFile) (w : World) (e : string) :
  unsupported file = false →
  converted env file w = Raise e →
  let answer := {| status_code := 500; detail := "Error processing PDF: " +:+ e |} in
  ((Service.process_pdf_document env file w).1 = inl answer
   ∧ ∃ evs, trace (Service.process_pdf_document env file w).2 = trace w ++ evs
            ∧ Forall (λ ev, downstream ev = false) evs)
  ∧ ((Chunks.extract_pdf_chunks env file w).1 = inl answer
     ∧ ∃ evs, trace (Chunks.extract_pdf_chunks env file w).2 = trace w ++ evs
              ∧ Forall (λ ev, downstream ev = false) evs).
Proof.
  intros Hun. unfold Service.process_pdf_document, Chunks.extract_pdf_chunks.
  rewrite Hun. unfold converted, staged_path, Service.try_body, Chunks.try_body. run.
  unfold Exc_bind, Exc_ret.
  destruct (mkstemp env (fs w)) as [|stem0]; simpl.
  { intros [= ->]. split; aborted. }
  destruct (read file) as [|content]; simpl.
  { intros [= ->]. split; aborted. }
  destruct (tmp_write env _ content); simpl.
  { intros [= ->]. split; aborted. }
  rewrite lookup_insert_eq. intros ->. simpl. split; aborted.
Qed.

(** X4.  When any step before the embeddings call raises (staging,
    conversion, text export, the chunker or the contextualizer),
    [process_pdf_document] answers HTTP 500 with the message of that
    exception and does not call the embeddings client. *)
Theorem failure_before_embeddings (file : UploadFile) (w : World) (e : string) :
  unsupported file = false →
  collected env file w = Raise e →
  (Service.process_pdf_document env file w).1
    = inl {| status_code := 500; detail := "Error processing PDF: " +:+ e |}
  ∧ ∃ evs, trace (Service.process_pdf_document env file w).2 = trace w ++ evs
           ∧ Forall (λ ev, embeds ev = false) evs.
Proof.
  intros Hun. unfold Service.process_pdf_document. rewrite Hun.
  unfold collected, converted, staged_path, Service.try_body. run.
  unfold Exc_bind, Exc_ret.
  destruct (mkstemp env (fs w)) as [|stem0]; simpl.
  { intros [= ->]. aborted. }
  destruct (read file) as [|content]; simpl.
  { intros [= ->]. aborted. }
  destruct (tmp_write env _ content); simpl.
  { intros [= ->]. aborted. }
  rewrite lookup_insert_eq.
  destruct (converter_convert env _ content) as [|doc]; simpl.
  { intros [= ->]. aborted. }
  destruct (export_to_text env doc); simpl.
  { intros [= ->]. aborted. }
  destruct (Service.chunk_data_loop env _ 0 [] []) as [|[cd texts]]; simpl.
  { intros [= ->]. aborted. }
  done.
Qed.

(** X5.  When the embeddings call itself raises, [process_pdf_document]
    answers HTTP 500 with the client's message, and the staged copy is
    gone from the disk. *)
Theorem embedding_failure_aborts (file : UploadFile) (w : World) (ft : string)
    (cd : list (Service.ChunkInfo Json)) (texts : list string) (e : string) :
  unsupported file = false →
  collected env file w = Return (ft, cd, texts) →
  embeddings_create env Service.MODEL texts = Raise e →
  ∃ path,
    staged_path env w = Return path
    ∧ (Service.process_pdf_document env file w).1
      = inl {| status_code := 500; detail := "Error processing PDF: " +:+ e |}
    ∧ fs (Service.process_pdf_document env file w).2 !! path = None
    ∧ EvEmbeddingsCreate Service.MODEL texts
        ∈ trace (Service.process_pdf_document env file w).2.
Proof.
  intros Hun Hcol Hraise. unfold collected, mbind, mret, Exc_bind, Exc_ret in Hcol.
  destruct (converted env file w) as [|doc] eqn:Hdoc; [done|].
  destruct (export_to_text env doc) as [|ft'] eqn:Hft; [done|].
  destruct (Service.chunk_data_loop env (chunker_chunk env doc) 0 [] [])
    as [|[cd' texts']] eqn:Hcd; [done|].
  injection Hcol as -> -> ->.
  destruct (process_pdf_document_run env file w doc ft cd texts Hun Hdoc Hft Hcd)
    as (path & content & Hpath & _ & ->).
  rewrite Hraise. exists path. simpl. split; [done|]. split; [done|].
  split; [apply lookup_delete_eq|].
  rewrite !elem_of_app, !elem_of_cons. tauto.
Qed.
End HandlerFailures.

Section HandlerAnswers.
Context {Document Json Float : Type}.
Variable env : Env Document Json Float.

Lemma chunk_data_loop_finished (it : ChunkIter Json) (idx : nat)
    (cd : list (Service.ChunkInfo Json)) (ct : list string)
    (out : list (Service.ChunkInfo Json) * list string) :
  Service.chunk_data_loop env it idx cd ct = Return out → finished it = true.
Proof.
  revert idx cd ct. induction it as [|c rest IH|e]; intros idx cd ct; simpl;
    [done| |done].
  unfold mbind, Exc_bind.
  destruct (Service.chunk_info env idx c) as [|[info s]]; [done|]. apply IH.
Qed.

Lemma extract_chunks_loop_finished (it : ChunkIter Json)
    (acc out : list (Chunks.ChunkResponse Json)) :
  Chunks.chunks_loop env it acc = Return out → finished it = true.
Proof.
  revert acc. induction it as [|c rest IH|e]; intros acc; simpl; [done| |done].
  unfold mbind, Exc_bind.
  destruct (Chunks.chunk_response env c) as [|r]; [done|]. apply IH.
Qed.

(** X7.  A successful answer accounts for the whole document: the
    generator of the chunker ran to its end without raising,
    [total_chunks] is both the number of chunk records and the number
    of chunks the generator yielded, and the [full_text] of
    [process_pdf_document] is the text export of the converted
    document. *)
Theorem answer_covers_document (file : UploadFile) (w : World) :
  (∀ resp, (Service.process_pdf_document env file w).1 = inr resp →
     ∃ doc,
       converted env file w = Return doc
       ∧ export_to_text env doc = Return (Service.full_text resp)
       ∧ finished (chunker_chunk env doc) = true
       ∧ Service.total_chunks resp = length (Service.chunks resp)
       ∧ Service.total_chunks resp = length (yielded (chunker_chunk env doc)))
  ∧ (∀ resp, (Chunks.extract_pdf_chunks env file w).1 = inr resp →
       ∃ doc,
         converted env file w = Return doc
         ∧ finished (chunker_chunk env doc) = true
         ∧ Chunks.total_chunks resp = length (Chunks.chunks resp)
         ∧ Chunks.total_chunks resp = length (yielded (chunker_chunk env doc))).
Proof.
  split; intros resp Hrun.
  - destruct (process_pdf_document_records env file w resp Hrun)
      as (doc & data & Hdoc & _ & Hlen & _).
    destruct (Service.process_pdf_document env file w) as [res w'] eqn:Hrun'.
    simpl in Hrun. subst res.
    apply process_pdf_document_inr in Hrun'
      as (path & doc' & cd & texts & data' & _ & _ & Hdoc' & Hft & Hcd & _ & _ & Htotal & _).
    rewrite Hdoc in Hdoc'. injection Hdoc' as <-.
    exists doc. repeat split; [done..| |done|congruence].
    by eapply chunk_data_loop_finished.
  - destruct (extract_pdf_chunks_records env file w resp Hrun)
      as (doc & Hdoc & Hlen & _).
    destruct (Chunks.extract_pdf_chunks env file w) as [res w'] eqn:Hrun'.
    simpl in Hrun. subst res.
    apply extract_pdf_chunks_inr in Hrun'
      as (path & doc' & _ & _ & Hdoc' & Hloop & Htotal & _).
    rewrite Hdoc in Hdoc'. injection Hdoc' as <-.
    exists doc. repeat split; [done| |done|congruence].
    by eapply extract_chunks_loop_finished.
Qed.
End HandlerAnswers.

(** ** The further properties on sample runs *)

Lemma staged_copy_unlinked_witness :
  let env := Demo.env Cases.broken (Return ()) Demo.one_each in
  unsupported Demo.pdf = false
  ∧ staged_path env Cases.busy = Return Demo.tmp
  ∧ staging env Demo.pdf Cases.busy = Return ()
  ∧ fs (Service.process_pdf_document env Demo.pdf Cases.busy).2 !! Demo.tmp = None
  ∧ fs (Chunks.extract_pdf_chunks env Demo.pdf Cases.busy).2 !! Demo.tmp = None.
Proof.
  intros env. do 3 (split; [by vm_compute|]).
  apply (staged_copy_unlinked env Demo.pdf Cases.busy Demo.tmp); by vm_compute.
Defined.

Lemma other_files_untouched_witness :
  staged_path Demo.healthy Cases.busy = Return Demo.tmp
  ∧ fs (Service.process_pdf_document Demo.healthy Demo.pdf Cases.busy).2
      !! "/tmp/other.pdf" = fs Cases.busy !! "/tmp/other.pdf"
  ∧ fs (Chunks.extract_pdf_chunks Demo.healthy Demo.pdf Cases.busy).2
      !! "/tmp/other.pdf" = fs Cases.busy !! "/tmp/other.pdf".
Proof.
  split; [by vm_compute|].
  apply (other_files_untouched Demo.healthy Demo.pdf Cases.busy "/tmp/other.pdf").
  by vm_compute.
Defined.

Lemma conversion_failure_aborts_witness :
  let env := Demo.env Demo.two_paragraphs Demo.ENOSPC Demo.one_each in
  unsupported Demo.pdf = false
  ∧ converted env Demo.pdf Demo.w0 = Raise "[Errno 28] No space left on device"
  ∧ (Service.process_pdf_document env Demo.pdf Demo.w0).1
    = inl {| status_code := 500;
             detail := "Error processing PDF: [Errno 28] No space left on device" |}
  ∧ (Chunks.extract_pdf_chunks env Demo.pdf Demo.w0).1
    = inl {| status_code := 500;
             detail := "Error processing PDF: [Errno 28] No space left on device" |}.
Proof.
  intros env. do 2 (split; [by vm_compute|]).
  destruct (conversion_failure_aborts env Demo.pdf Demo.w0
              "[Errno 28] No space left on device")
    as [[Hservice _] [Hchunks _]]; [by vm_compute..|].
  split; [exact Hservice | exact Hchunks].
Defined.

Lemma failure_before_embeddings_witness :
  let env := Demo.env Cases.broken (Return ()) Demo.one_each in
  unsupported Demo.pdf = false
  ∧ collected env Demo.pdf Demo.w0 = Raise "page 2 could not be parsed"
  ∧ (Service.process_pdf_document env Demo.pdf Demo.w0).1
    = inl {| status_code := 500;
             detail := "Error processing PDF: page 2 could not be parsed" |}.
Proof.
  intros env. do 2 (split; [by vm_compute|]).
  refine (proj1 (failure_before_embeddings env Demo.pdf Demo.w0
                   "page 2 could not be parsed" _ _)); by vm_compute.
Defined.

Lemma embedding_failure_aborts_witness :
  let env := Demo.env Demo.two_paragraphs (Return ())
               (λ _, Raise "Error code: 429 - quota exceeded") in
  unsupported Demo.pdf = false
  ∧ collected env Demo.pdf Demo.w0
    = Return ("Introduction", Demo.infos, [Demo.context1; Demo.context2])
  ∧ embeddings_create env Service.MODEL [Demo.context1; Demo.context2]
    = Raise "Error code: 429 - quota exceeded"
  ∧ ∃ path,
      staged_path env Demo.w0 = Return path
      ∧ (Service.process_pdf_document env Demo.pdf Demo.w0).1
        = inl {| status_code := 500;
                 detail := "Error processing PDF: Error code: 429 - quota exceeded" |}
      ∧ fs (Service.process_pdf_document env Demo.pdf Demo.w0).2 !! path = None
      ∧ EvEmbeddingsCreate Service.MODEL [Demo.context1; Demo.context2]
          ∈ trace (Service.process_pdf_document env Demo.pdf Demo.w0).2.
Proof.
  intros env. do 3 (split; [by vm_compute|]).
  apply (embedding_failure_aborts env Demo.pdf Demo.w0 "Introduction" Demo.infos
           [Demo.context1; Demo.context2] "Error code: 429 - quota exceeded");
    by vm_compute.
Defined.

Lemma answer_covers_document_witness :
  (Service.process_pdf_document Demo.healthy Demo.pdf Demo.w0).1 = inr Demo.processed
  ∧ (Chunks.extract_pdf_chunks Demo.healthy Demo.pdf Demo.w0).1 = inr Demo.extracted
  ∧ (∃ doc,
       converted Demo.healthy Demo.pdf Demo.w0 = Return doc
       ∧ export_to_text Demo.healthy doc = Return (Service.full_text Demo.processed)
       ∧ finished (chunker_chunk Demo.healthy doc) = true
       ∧ Service.total_chunks Demo.processed = length (Service.chunks Demo.processed)
       ∧ Service.total_chunks Demo.processed
         = length (yielded (chunker_chunk Demo.healthy doc)))
  ∧ (∃ doc,
       converted Demo.healthy Demo.pdf Demo.w0 = Return doc
       ∧ finished (chunker_chunk Demo.healthy doc) = true
       ∧ Chunks.total_chunks Demo.extracted = length (Chunks.chunks Demo.extracted)
       ∧ Chunks.total_chunks Demo.extracted
         = length (yielded (chunker_chunk Demo.healthy doc))).
Proof.
  do 2 (split; [by vm_compute|]).
  destruct (answer_covers_document Demo.healthy Demo.pdf Demo.w0)
    as [Hservice Hchunks].
  split; [apply Hservice | apply Hchunks]; by vm_compute.
Defined.

(** * Further properties of the batch scripts *)

(** ** The name of an output file *)

Lemma rfind_dot_append (a s : string) (i : nat) (last : option nat) :
  rfind_dot (a +:+ s) i last = rfind_dot s (i + String.length a) (rfind_dot a i last).
Proof.
  revert i last. induction a as [|x a IH]; intros i last.
  - simpl. by rewrite Nat.add_0_r.
  - rewrite append_String. simpl. rewrite IH. f_equal. lia.
Qed.

Lemma substring_prefix (a s : string) :
  String.substring 0 (String.length a) (a +:+ s) = a.
Proof.
  induction a as [|x a IH]; [by destruct s|].
  rewrite append_String. simpl. by rewrite IH.
Qed.

Lemma append_inj_r (a b s : string) : a +:+ s = b +:+ s → a = b.
Proof.
  revert b. induction a as [|x a IH]; intros [|y b] Heq.
  - done.
  - apply (f_equal String.length) in Heq.
    rewrite !length_append in Heq. simpl in Heq. lia.
  - apply (f_equal String.length) in Heq.
    rewrite !length_append in Heq. simpl in Heq. lia.
  - rewrite !append_String in Heq. injection Heq as -> Heq. f_equal. by apply IH.
Qed.

(** The stem of a name that ends with [.pdf] after at least one other
    character is the name without that suffix. *)
Lemma stem_pdf (base : string) : base ≠ "" → stem (base +:+ ".pdf") = base.
Proof.
  intros Hbase. unfold stem. rewrite rfind_dot_append. simpl.
  assert (0 < String.length base) as Hpos by (destruct base; [done | simpl; lia]).
  rewrite length_append. simpl.
  replace (0 <? String.length base) with true by (symmetry; by apply Nat.ltb_lt).
  replace (String.length base <? String.length base + 4 - 1) with true
    by (symmetry; apply Nat.ltb_lt; lia).
  simpl. apply substring_prefix.
Qed.

(** X8.  The markdown script writes the text of [<base>.pdf] to
    [md/<base>.md], and two such inputs with different names never
    share an output file. *)
Theorem md_file_path_pdf (base other : string) :
  base ≠ "" →
  other ≠ "" →
  MarkdownScript.md_file_path (base +:+ ".pdf") = "md/" +:+ base +:+ ".md"
  ∧ (MarkdownScript.md_file_path (base +:+ ".pdf")
       = MarkdownScript.md_file_path (other +:+ ".pdf") →
     base = other).
Proof.
  intros Hbase Hother. unfold MarkdownScript.md_file_path.
  rewrite !stem_pdf by done. split; [done|].
  intros Heq%(inj (String.app "md/")). by apply append_inj_r in Heq.
Qed.

Lemma md_file_path_pdf_witness :
  "rules" ≠ "" ∧ "faq" ≠ ""
  ∧ MarkdownScript.md_file_path "rules.pdf" = "md/rules.md".
Proof.
  do 2 (split; [done|]).
  exact (proj1 (md_file_path_pdf "rules" "faq" ltac:(done) ltac:(done))).
Defined.

(** The name [.pdf] has no suffix for [stem], so it shares its output
    file with [.pdf.pdf]. *)
Example md_file_path_hidden :
  MarkdownScript.md_file_path ".pdf" = "md/.pdf.md"
  ∧ MarkdownScript.md_file_path ".pdf.pdf" = "md/.pdf.md".
Proof. split; by vm_compute. Qed.

(** ** One outcome per file *)

Lemma saved_app (l1 l2 : list Line) : saved (l1 ++ l2) = saved l1 ++ saved l2.
Proof. apply omap_app. Qed.

Lemma failed_app (l1 l2 : list Line) : failed (l1 ++ l2) = failed l1 ++ failed l2.
Proof. apply omap_app. Qed.

Section MarkdownOutcomes.
Variable env : MarkdownScript.Env.

(** The report of a file holds one saved line, for the file written,
    or one error line. *)
Lemma report_outcome (name : string) :
  saved (MarkdownOutcome.report env name)
    = (option_list (MarkdownOutcome.output env name)).*1
  ∧ length (saved (MarkdownOutcome.report env name))
    + length (failed (MarkdownOutcome.report env name)) = 1.
Proof.
  unfold MarkdownOutcome.report, MarkdownOutcome.output.
  destruct (MarkdownOutcome.outcome env name); split; reflexivity.
Qed.

Lemma reports_outcomes (pdf_files : list string) :
  saved (concat (MarkdownOutcome.report env <$> pdf_files))
    = (omap (MarkdownOutcome.output env) pdf_files).*1
  ∧ length (saved (concat (MarkdownOutcome.report env <$> pdf_files)))
    + length (failed (concat (MarkdownOutcome.report env <$> pdf_files)))
    = length pdf_files.
Proof.
  induction pdf_files as [|name rest [IHsaved IHcount]]; [done|].
  change (concat (MarkdownOutcome.report env <$> name :: rest))
    with (MarkdownOutcome.report env name
          ++ concat (MarkdownOutcome.report env <$> rest)).
  destruct (report_outcome name) as [Hsaved Hone].
  rewrite saved_app, failed_app, !length_app. split.
  - rewrite Hsaved, IHsaved. cbn [omap list_omap].
    by destruct (MarkdownOutcome.output env name).
  - change (length (name :: rest)) with (S (length rest)). lia.
Qed.

(** X9.  In a run of the markdown script on a standard output that
    takes every line, every file ends in exactly one of the two
    outcomes: the saved lines and the error lines together are as many
    as the files; the saved lines name, in order, the outputs of the
    files that converted and were written in full; and each of those
    outputs is among the files written, with the converted text. *)
Theorem markdown_one_outcome_per_file (pdf_files : list string) (σ : Script) :
  (∀ l, MarkdownScript.stdout_refuses env l = None) →
  let σ' := (MarkdownScript.main env pdf_files σ).2 in
  saved (stdout σ') = saved (stdout σ) ++ (omap (MarkdownOutcome.output env) pdf_files).*1
  ∧ length (saved (stdout σ')) + length (failed (stdout σ'))
    = length (saved (stdout σ)) + length (failed (stdout σ)) + length pdf_files
  ∧ ∀ path md, (path, md) ∈ omap (MarkdownOutcome.output env) pdf_files →
      (path, md) ∈ written σ'.
Proof.
  intros Hprint. cbv zeta. rewrite markdown_main by done. cbn [snd stdout written].
  destruct (reports_outcomes pdf_files) as [Hsaved Hcount].
  rewrite saved_app, failed_app, !length_app.
  split; [|split].
  - destruct pdf_files as [|name rest]; [done|].
    remember (name :: rest) as files eqn:Hfiles.
    change (saved (Found (length files)
              :: concat (MarkdownOutcome.report env <$> files) ++ [Complete "md"]))
      with (saved (concat (MarkdownOutcome.report env <$> files) ++ [Complete "md"])).
    rewrite saved_app, Hsaved.
    change (saved [Complete "md"]) with (@nil string).
    by rewrite app_nil_r.
  - destruct pdf_files as [|name rest].
    { change (length (saved [NoFiles])) with 0.
      change (length (failed [NoFiles])) with 0. simpl. lia. }
    remember (name :: rest) as files eqn:Hfiles.
    change (saved (Found (length files)
              :: concat (MarkdownOutcome.report env <$> files) ++ [Complete "md"]))
      with (saved (concat (MarkdownOutcome.report env <$> files) ++ [Complete "md"])).
    change (failed (Found (length files)
              :: concat (MarkdownOutcome.report env <$> files) ++ [Complete "md"]))
      with (failed (concat (MarkdownOutcome.report env <$> files) ++ [Complete "md"])).
    rewrite saved_app, failed_app, !length_app.
    change (saved [Complete "md"]) with (@nil string).
    change (failed [Complete "md"]) with (@nil string).
    cbn [length]. lia.
  - intros path md (name & Hname & Hout)%list_elem_of_omap.
    apply elem_of_app. right. apply list_elem_of_omap. exists name.
    split; [done|]. unfold MarkdownOutcome.output in Hout.
    destruct (MarkdownOutcome.outcome env name) as [|md'] eqn:Houtcome; [done|].
    injection Hout as <- <-. by apply leaves_output.
Qed.
End MarkdownOutcomes.

Lemma markdown_one_outcome_per_file_witness :
  (∀ l, MarkdownScript.stdout_refuses Cases.markdown_full l = None)
  ∧ saved (stdout (MarkdownScript.main Cases.markdown_full
                     ["a.pdf"; "b.pdf"; "c.pdf"] Demo.s0).2)
    = saved (stdout Demo.s0)
      ++ (omap (MarkdownOutcome.output Cases.markdown_full)
            ["a.pdf"; "b.pdf"; "c.pdf"]).*1.
Proof.
  split; [done|].
  exact (proj1 (markdown_one_outcome_per_file Cases.markdown_full
                  ["a.pdf"; "b.pdf"; "c.pdf"] Demo.s0 (λ _, eq_refl))).
Defined.

(** ** The chunk printer *)

Section ChunkPrinter.
Context {Document Json : Type}.
Variable env : ChunkScript.Env Document Json.

(** What one pass of the outer loop prints, whatever the stream
    refuses: lines whose headers count up from 0, after the file's
    announcement when the stream takes it; it writes nothing. *)
Lemma chunk_convert_file_lines (chunker : ChunkScript.HybridChunker Document Json)
    (σ : Script) (name : string) :
  ∃ lines,
    (ChunkScript.convert_file env chunker name σ).2
      = {| stdout := stdout σ ++ lines; written := written σ |}
    ∧ headers lines = seq 0 (length (headers lines))
    ∧ (ChunkScript.stdout_refuses env (Converting name) = None →
       ∃ rest, lines = Converting name :: rest).
Proof.
  unfold ChunkScript.convert_file, except_print, ChunkScript.try_body, lift.
  unfold mbind, StateExc_bind. unfold print at 1.
  destruct (ChunkScript.stdout_refuses env (Converting name)) eqn:Hannounce.
  { exists []. rewrite app_nil_r. by destruct σ. }
  destruct (ChunkScript.convert_document env name) as [e|doc].
  - unfold print. cbn [stdout written].
    destruct (ChunkScript.stdout_refuses env (ErrorConverting name e)).
    + exists [Converting name]. cbn [snd]. split; [done|]. split; [done|]. eauto.
    + exists [Converting name; ErrorConverting name e]. cbn [snd stdout written].
      rewrite <- (assoc_L (++)). split; [done|]. split; [done|]. eauto.
  - destruct (chunk_loop_lines env chunker (ChunkScript.hybrid_chunk chunker doc) 0
        {| stdout := stdout σ ++ [Converting name]; written := written σ |})
      as (lines & Hrun & _ & Hseq & _).
    destruct (ChunkScript.chunk_loop env chunker _ 0 _) as [[e|[]] σ'];
      cbn [snd stdout written] in Hrun; subst σ'.
    + unfold print. cbn [stdout written].
      destruct (ChunkScript.stdout_refuses env (ErrorConverting name e)).
      * exists (Converting name :: lines). cbn [snd].
        rewrite <- (assoc_L (++)). split; [done|]. split; [done|]. eauto.
      * exists (Converting name :: lines ++ [ErrorConverting name e]).
        cbn [snd stdout written]. rewrite <- !(assoc_L (++)).
        split; [done|]. split; [|eauto].
        change (headers (Converting name :: lines ++ [ErrorConverting name e]))
          with (headers (lines ++ [ErrorConverting name e])).
        unfold headers. rewrite omap_app. fold (headers lines).
        change (omap (λ l, match l with ChunkHeader i => Some i | _ => None end)
                  [ErrorConverting name e]) with (@nil nat).
        by rewrite app_nil_r.
    + exists (Converting name :: lines). cbn [snd].
      rewrite <- (assoc_L (++)). split; [done|]. split; [done|]. eauto.
Qed.

Lemma chunk_for_each_written (chunker : ChunkScript.HybridChunker Document Json)
    (pdf_files : list string) (σ : Script) :
  written (for_each (ChunkScript.convert_file env chunker) pdf_files σ).2
    = written σ.
Proof.
  revert σ. induction pdf_files as [|name rest IH]; intros σ; [done|].
  cbn [for_each]. unfold mbind, StateExc_bind.
  destruct (chunk_convert_file_lines chunker σ name) as (lines & Hrun & _).
  destruct (ChunkScript.convert_file env chunker name σ) as [[e|[]] σ'];
    cbn [snd] in *; subst σ'; [done|].
  by rewrite IH.
Qed.

(** X10.  The chunk printer writes no file, whatever the directory
    holds, whatever the converter and the chunker do and whatever the
    standard output refuses; and a run over a directory that is not
    empty, when it ends normally, ends by announcing output files in
    [docling]. *)
Theorem chunk_script_never_writes (pdf_files : list string) (σ : Script) :
  written (ChunkScript.main env pdf_files σ).2 = written σ
  ∧ ((ChunkScript.main env pdf_files σ).1 = Return () →
     pdf_files ≠ [] →
     last (stdout (ChunkScript.main env pdf_files σ).2) = Some (Complete "docling")).
Proof.
  unfold ChunkScript.main. destruct pdf_files as [|name rest].
  { unfold print. by destruct (ChunkScript.stdout_refuses env NoFiles). }
  remember (name :: rest) as files eqn:Hfiles.
  unfold mbind, StateExc_bind, lift, print.
  destruct (ChunkScript.stdout_refuses env (Found (length files)));
    [by split|].
  destruct (ChunkScript.new_HybridChunker env) as [e|chunker]; [by split|].
  pose proof (chunk_for_each_written chunker files
                {| stdout := stdout σ ++ [Found (length files)];
                   written := written σ |}) as Hwritten.
  destruct (for_each (ChunkScript.convert_file env chunker) files _)
    as [[e|[]] σ']; cbn [snd written] in *; [by split|].
  destruct (ChunkScript.stdout_refuses env (Complete "docling"));
    cbn [fst snd stdout written]; [by split|].
  split; [done|]. intros _ _. apply last_snoc.
Qed.

(** X11.  For each file the chunk printer numbers the chunks it prints
    0, 1, 2, ... without a gap, also when the file is left early by an
    exception or the standard output refuses a line; the lines of the
    file follow its announcement when the standard output takes it. *)
Theorem chunk_headers_count_up (chunker : ChunkScript.HybridChunker Document Json)
    (σ : Script) (name : string) :
  ∃ lines,
    stdout (ChunkScript.convert_file env chunker name σ).2 = stdout σ ++ lines
    ∧ headers lines = seq 0 (length (headers lines))
    ∧ (ChunkScript.stdout_refuses env (Converting name) = None →
       ∃ rest, lines = Converting name :: rest).
Proof.
  destruct (chunk_convert_file_lines chunker σ name) as (lines & Hrun & Hseq & Hhead).
  exists lines. by rewrite Hrun.
Qed.
End ChunkPrinter.

(** * Properties of the getters and the endpoints *)

Section GetterProperties.
Context {Document Json Float : Type}.

(** X12.  Once [get_openai_client] has returned a client, the client is
    cached and every later call returns that same client without
    consulting the constructors again, so a key that changes later is
    not picked up; and a client that was not cached before was built
    with the key of the settings that are now cached. *)
Theorem openai_client_singleton (k : Getters.Constructors Document Json Float)
    (c c' : Getters.Caches Document Json Float) (cl : Getters.OpenAI Float) :
  Getters.get_openai_client k c = (Return cl, c') →
  Getters.client_cache c' = Some cl
  ∧ (∀ k', Getters.get_openai_client k' c' = (Return cl, c'))
  ∧ (Getters.client_cache c = None →
     ∃ s, Getters.settings_cache c' = Some s
          ∧ Getters.new_OpenAI k (Getters.openai_api_key s) = Return cl).
Proof.
  unfold Getters.get_openai_client, lru_cache.
  destruct (Getters.client_cache c) as [cached|] eqn:Hclient.
  - intros ?; simplify_eq. split; [done|]. split; [|congruence].
    intros k'. unfold Getters.get_openai_client, lru_cache. by rewrite Hclient.
  - unfold mbind, StateExc_bind, Getters.get_settings, lru_cache, lift.
    destruct (Getters.settings_cache c) as [s|] eqn:Hsettings.
    + destruct (Getters.new_OpenAI k (Getters.openai_api_key s)) as [|cl'] eqn:Hnew;
        [done|].
      intros [= <- <-]. simpl. split; [done|]. split; [done|].
      intros _. by exists s.
    + destruct (Getters.new_Settings k) as [|s] eqn:Hs; [done|].
      destruct (Getters.new_OpenAI k (Getters.openai_api_key s)) as [|cl'] eqn:Hnew;
        [done|].
      intros [= <- <-]. simpl. split; [done|]. split; [done|].
      intros _. by exists s.
Qed.

Variable tf : Getters.Tempfile.

(** X13.  With the objects in the caches, an endpoint answers what its
    handler answers on those objects, leaves the caches as they are
    and never calls a constructor. *)
Theorem endpoint_uses_cached_objects (k : Getters.Constructors Document Json Float)
    (file : UploadFile) (c : Getters.Caches Document Json Float) (w : World)
    (converter : Getters.DocumentConverter Document)
    (chunker : Getters.HierarchicalChunker Document Json)
    (openai_client : Getters.OpenAI Float) :
  Getters.converter_cache c = Some converter →
  Getters.chunker_cache c = Some chunker →
  (Getters.client_cache c = Some openai_client →
   let env := Getters.environment tf converter chunker openai_client in
   Endpoint.process_pdf_document tf k file c w
     = (Answer (Service.process_pdf_document env file w).1, c,
        (Service.process_pdf_document env file w).2))
  ∧ (let env := Getters.environment tf converter chunker (@Getters.no_client Float) in
     Endpoint.extract_pdf_chunks tf k file c w
       = (Answer (Chunks.extract_pdf_chunks env file w).1, c,
          (Chunks.extract_pdf_chunks env file w).2)).
Proof.
  intros Hconverter Hchunker. split; [intros Hclient|]; cbv zeta.
  - unfold Endpoint.process_pdf_document.
    destruct (unsupported file) eqn:Hun.
    { unfold Service.process_pdf_document. by rewrite Hun. }
    unfold Getters.get_document_converter, Getters.get_chunker,
      Getters.get_openai_client, lru_cache, mbind, mret, StateExc_bind, StateExc_ret.
    rewrite Hconverter, Hchunker, Hclient.
    by destruct (Service.process_pdf_document _ file w).
  - unfold Endpoint.extract_pdf_chunks.
    destruct (unsupported file) eqn:Hun.
    { unfold Chunks.extract_pdf_chunks. by rewrite Hun. }
    unfold Getters.get_document_converter, Getters.get_chunker,
      lru_cache, mbind, mret, StateExc_bind, StateExc_ret.
    rewrite Hconverter, Hchunker.
    by destruct (Chunks.extract_pdf_chunks _ file w).
Qed.

(** X14.  On the first request of a process whose environment lacks
    the API key, [process_pdf_document] is left by the exception of
    [Settings()] itself, not by an [HTTPException]: the converter and
    the chunker were built and stay cached, the client is not, and no
    temporary file was created. *)
Theorem missing_key_escapes (k : Getters.Constructors Document Json Float)
    (file : UploadFile) (w : World)
    (converter : Getters.DocumentConverter Document)
    (chunker : Getters.HierarchicalChunker Document Json) (e : string) :
  unsupported file = false →
  Getters.new_DocumentConverter k = Return converter →
  Getters.new_HierarchicalChunker k = Return chunker →
  Getters.new_Settings k = Raise e →
  Endpoint.process_pdf_document tf k file Getters.no_caches w
    = (Unhandled e,
       {| Getters.settings_cache := None;
          Getters.converter_cache := Some converter;
          Getters.chunker_cache := Some chunker;
          Getters.client_cache := None |},
       w).
Proof.
  intros Hun Hconverter Hchunker Hsettings.
  unfold Endpoint.process_pdf_document. rewrite Hun.
  unfold Getters.get_document_converter, Getters.get_chunker,
    Getters.get_openai_client, Getters.get_settings, lru_cache, lift,
    mbind, mret, StateExc_bind, StateExc_ret.
  simpl. rewrite Hconverter. simpl. rewrite Hchunker. simpl. by rewrite Hsettings.
Qed.

Lemma converter_cached (k : Getters.Constructors Document Json Float)
    (c c' : Getters.Caches Document Json Float)
    (v : Getters.DocumentConverter Document) :
  Getters.get_document_converter k c = (Return v, c') →
  Getters.converter_cache c' = Some v.
Proof.
  unfold Getters.get_document_converter, lru_cache, lift.
  destruct (Getters.converter_cache c) eqn:Hc.
  - intros ?; by simplify_eq.
  - destruct (Getters.new_DocumentConverter k); [done|]. intros ?; by simplify_eq.
Qed.

Lemma chunker_cached (k : Getters.Constructors Document Json Float)
    (c c' : Getters.Caches Document Json Float)
    (v : Getters.HierarchicalChunker Document Json) :
  Getters.get_chunker k c = (Return v, c') →
  Getters.chunker_cache c' = Some v
  ∧ Getters.converter_cache c' = Getters.converter_cache c.
Proof.
  unfold Getters.get_chunker, lru_cache, lift.
  destruct (Getters.chunker_cache c) eqn:Hc.
  - intros ?; by simplify_eq.
  - destruct (Getters.new_HierarchicalChunker k); [done|]. intros ?; by simplify_eq.
Qed.

Lemma openai_client_cached (k : Getters.Constructors Document Json Float)
    (c c' : Getters.Caches Document Json Float) (v : Getters.OpenAI Float) :
  Getters.get_openai_client k c = (Return v, c') →
  Getters.client_cache c' = Some v
  ∧ Getters.converter_cache c' = Getters.converter_cache c
  ∧ Getters.chunker_cache c' = Getters.chunker_cache c.
Proof.
  unfold Getters.get_openai_client, Getters.get_settings, lru_cache, lift,
    mbind, StateExc_bind.
  destruct (Getters.client_cache c) eqn:Hc.
  - intros ?; by simplify_eq.
  - destruct (Getters.settings_cache c).
    + destruct (Getters.new_OpenAI k _); [done|]. intros ?; by simplify_eq.
    + destruct (Getters.new_Settings k) as [|s]; [done|].
      destruct (Getters.new_OpenAI k _); [done|]. intros ?; by simplify_eq.
Qed.

(** X15.  A request that an endpoint answers, other than with the
    HTTP 400 of the filename check, leaves every object the handler
    used in the caches, and the answer is the handler's answer on
    those objects. *)
Theorem endpoint_fills_caches (k : Getters.Constructors Document Json Float)
    (file : UploadFile) (c c' : Getters.Caches Document Json Float) (w w' : World)
    (r : HTTPException + Service.ProcessedDocumentResponse Json Float) :
  unsupported file = false →
  Endpoint.process_pdf_document tf k file c w = (Answer r, c', w') →
  ∃ converter chunker openai_client,
    Getters.converter_cache c' = Some converter
    ∧ Getters.chunker_cache c' = Some chunker
    ∧ Getters.client_cache c' = Some openai_client
    ∧ Service.process_pdf_document
        (Getters.environment tf converter chunker openai_client) file w = (r, w').
Proof.
  intros Hun. unfold Endpoint.process_pdf_document. rewrite Hun.
  unfold mbind, mret, StateExc_bind, StateExc_ret.
  destruct (Getters.get_document_converter k c) as [[|converter] c1] eqn:H1; [done|].
  destruct (Getters.get_chunker k c1) as [[|chunker] c2] eqn:H2; [done|].
  destruct (Getters.get_openai_client k c2) as [[|cl] c3] eqn:H3; [done|].
  destruct (Service.process_pdf_document _ file w) as [r0 w0] eqn:Hrun.
  intros [= <- <- <-]. exists converter, chunker, cl.
  apply openai_client_cached in H3 as (Hcl & Hco3 & Hch3).
  apply chunker_cached in H2 as (Hch & Hco2).
  apply converter_cached in H1.
  repeat split; [congruence..|done].
Qed.
End GetterProperties.

(** ** The getters and the endpoints on sample runs *)

Lemma openai_client_singleton_witness :
  let c' :=
    {| Getters.settings_cache := Some {| Getters.openai_api_key := "sk-test" |};
       Getters.converter_cache := None;
       Getters.chunker_cache := None;
       Getters.client_cache := Some Cases.client |} in
  Getters.get_openai_client (Cases.constructors Cases.with_key) Getters.no_caches
    = (Return Cases.client, c')
  ∧ Getters.client_cache c' = Some Cases.client
  ∧ Getters.get_openai_client (Cases.constructors Cases.without_key) c'
    = (Return Cases.client, c').
Proof.
  intros c'. split; [reflexivity|].
  destruct (openai_client_singleton (Cases.constructors Cases.with_key)
              Getters.no_caches c' Cases.client eq_refl) as (Hcached & Hlater & _).
  split; [exact Hcached | apply Hlater].
Defined.

Lemma endpoint_uses_cached_objects_witness :
  Getters.converter_cache Cases.warm = Some Cases.converter
  ∧ Getters.chunker_cache Cases.warm = Some Cases.chunker
  ∧ Getters.client_cache Cases.warm = Some Cases.client
  ∧ Endpoint.process_pdf_document Cases.tempfile
      (Cases.constructors Cases.without_key) Demo.pdf Cases.warm Demo.w0
    = (Answer
         (Service.process_pdf_document
            (Getters.environment Cases.tempfile Cases.converter Cases.chunker
               Cases.client) Demo.pdf Demo.w0).1,
       Cases.warm,
       (Service.process_pdf_document
          (Getters.environment Cases.tempfile Cases.converter Cases.chunker
             Cases.client) Demo.pdf Demo.w0).2).
Proof.
  do 3 (split; [reflexivity|]).
  exact (proj1 (endpoint_uses_cached_objects Cases.tempfile
                  (Cases.constructors Cases.without_key) Demo.pdf Cases.warm Demo.w0
                  Cases.converter Cases.chunker Cases.client eq_refl eq_refl)
           eq_refl).
Defined.

Lemma missing_key_escapes_witness :
  unsupported Demo.pdf = false
  ∧ Endpoint.process_pdf_document Cases.tempfile
      (Cases.constructors Cases.without_key) Demo.pdf Getters.no_caches Cases.busy
    = (Unhandled "1 validation error for Settings: openai_api_key Field required",
       {| Getters.settings_cache := None;
          Getters.converter_cache := Some Cases.converter;
          Getters.chunker_cache := Some Cases.chunker;
          Getters.client_cache := None |},
       Cases.busy).
Proof.
  split; [by vm_compute|].
  apply (missing_key_escapes Cases.tempfile (Cases.constructors Cases.without_key)
           Demo.pdf Cases.busy Cases.converter Cases.chunker);
    [by vm_compute | reflexivity..].
Defined.

Lemma endpoint_fills_caches_witness :
  unsupported Demo.pdf = false
  ∧ Endpoint.process_pdf_document Cases.tempfile
      (Cases.constructors Cases.with_key) Demo.pdf Getters.no_caches Demo.w0
    = (Answer (inr Demo.processed), Cases.warm, Demo.w1)
  ∧ ∃ converter chunker openai_client,
      Getters.converter_cache Cases.warm = Some converter
      ∧ Getters.chunker_cache Cases.warm = Some chunker
      ∧ Getters.client_cache Cases.warm = Some openai_client
      ∧ Service.process_pdf_document
          (Getters.environment Cases.tempfile converter chunker openai_client)
          Demo.pdf Demo.w0 = (inr Demo.processed, Demo.w1).
Proof.
  do 2 (split; [by vm_compute|]).
  apply (endpoint_fills_caches Cases.tempfile (Cases.constructors Cases.with_key)
           Demo.pdf Getters.no_caches Cases.warm Demo.w0 Demo.w1 (inr Demo.processed));
    by vm_compute.
Defined.
